(** * In-memory resource stores of the FastAPI teaching corpus

    Shallow embedding of the CRUD handlers of
    [first_project/routers/users.py], [first_project/routers/items.py] and
    [Pydantic for data validation/unset_and_patch.py], together with the
    properties of the resource store that the handlers implement.

    Python's [dict] keeps its keys unique and in insertion order, and the
    handlers expose that order through [list(d.values())]; a dictionary is
    therefore an association list with the operations written out the way
    CPython performs them.  Handlers are computations in a state-and-exception
    monad over the module-level dictionary they close over. *)

From stdpp Require Import base option list strings numbers sorting pretty.

Local Open Scope Z_scope.

(** ** Python dictionaries *)

Module PyDict.
Section dict.
Context {K V : Type} `{EqDecision K}.

(** [d.get(k)]: the value bound to [k], if any. *)
Fixpoint get (k : K) (d : list (K * V)) : option V :=
  match d with
  | [] => None
  | (k', v) :: d' => if decide (k = k') then Some v else get k d'
  end.

(** [k in d] *)
Definition contains (k : K) (d : list (K * V)) : bool :=
  match get k d with Some _ => true | None => false end.

(** [d[k] = v]: an existing key keeps its position, a new key goes last. *)
Fixpoint setitem (k : K) (v : V) (d : list (K * V)) : list (K * V) :=
  match d with
  | [] => [(k, v)]
  | (k', v') :: d' =>
      if decide (k = k') then (k', v) :: d' else (k', v') :: setitem k v d'
  end.

(** [del d[k]] for a key that is present: its entry leaves, the others keep
    their order. *)
Definition delitem (k : K) (d : list (K * V)) : list (K * V) :=
  filter (λ kv, kv.1 ≠ k) d.

(** [d.keys()] and [d.values()], in dictionary order. *)
Definition keys (d : list (K * V)) : list K := d.*1.
Definition values (d : list (K * V)) : list V := d.*2.

(** [d.update(other)] *)
Definition update (d other : list (K * V)) : list (K * V) :=
  foldl (λ acc kv, setitem kv.1 kv.2 acc) d other.

(** The dictionary display [{k: v, **other}]. *)
Definition display (k : K) (v : V) (other : list (K * V)) : list (K * V) :=
  update [(k, v)] other.

(** The keys of a dictionary are pairwise distinct. *)
Definition wf (d : list (K * V)) : Prop := NoDup (keys d).
End dict.
End PyDict.

(** [max(iterable)] over integers; [None] stands for the [ValueError] that
    CPython raises on an empty iterable. *)
Definition py_max (l : list Z) : option Z :=
  match l with
  | [] => None
  | x :: l' => Some (foldl Z.max x l')
  end.

(** ** Values, exceptions and handlers *)

Inductive UserType := ADMIN | CUSTOMER.

Inductive value :=
  | VNone
  | VInt (z : Z)
  | VStr (s : string)
  | VUserType (t : UserType).

(** A record is a [dict] from field names to values. *)
Abbreviation record := (list (string * value)).

Inductive exn :=
  | HTTPException (status_code : Z) (detail : string)
  | RequestValidationError
  | ValueError
  | KeyError.

Definition HTTP_404_NOT_FOUND : Z := 404.

Inductive outcome (A : Type) :=
  | Return (a : A)
  | Raise (e : exn).
Arguments Return {A} a.
Arguments Raise {A} e.

(** A handler runs against the module-level store [S]: it returns or raises,
    and leaves a store behind in both cases. *)
Definition handler (S A : Type) : Type := S → outcome A * S.

Section monad.
Context {S : Type}.

Definition ret {A} (a : A) : handler S A := λ s, (Return a, s).

Definition bind {A B} (m : handler S A) (f : A → handler S B) : handler S B :=
  λ s, match m s with
       | (Return a, s') => f a s'
       | (Raise e, s') => (Raise e, s')
       end.

Definition raise {A} (e : exn) : handler S A := λ s, (Raise e, s).

Definition read : handler S S := λ s, (Return s, s).

Definition write (s' : S) : handler S () := λ _, (Return (), s').

(** Requests are served one after another; a handler that raises ends its own
    request only. *)
Fixpoint serve_all {A B} (h : A → handler S B) (xs : list A) (s : S)
  : list (outcome B) * S :=
  match xs with
  | [] => ([], s)
  | x :: xs' =>
      let (o, s') := h x s in
      let (os, s'') := serve_all h xs' s' in
      (o :: os, s'')
  end.
End monad.

Notation "x <- m ;; k" := (bind m (λ x, k))
  (at level 100, m at next level, right associativity).
Notation "m ;;; k" := (bind m (λ _, k))
  (at level 100, right associativity).

(** Operations on a global dictionary with integer keys. *)
Section global_dict.
Context {V : Type}.

(** [k in d] *)
Definition contains (k : Z) : handler (list (Z * V)) bool :=
  d <- read ;; ret (PyDict.contains k d).

(** [d[k]] *)
Definition getitem (k : Z) : handler (list (Z * V)) V :=
  d <- read ;;
  match PyDict.get k d with
  | Some v => ret v
  | None => raise KeyError
  end.

(** [d[k] = v] *)
Definition setitem (k : Z) (v : V) : handler (list (Z * V)) () :=
  d <- read ;; write (PyDict.setitem k v d).

(** [del d[k]] *)
Definition delitem (k : Z) : handler (list (Z * V)) () :=
  d <- read ;;
  if PyDict.contains k d then write (PyDict.delitem k d) else raise KeyError.

(** [max(d.keys())] *)
Definition max_key : handler (list (Z * V)) Z :=
  d <- read ;;
  match py_max (PyDict.keys d) with
  | Some m => ret m
  | None => raise ValueError
  end.

(** [list(d.values())] *)
Definition list_values : handler (list (Z * V)) (list V) :=
  d <- read ;; ret (PyDict.values d).
End global_dict.

(** ** [first_project/schemes/user.py] *)

Module UserIn.
Record t := mk { name : string; user_type : UserType }.

(** [user.dict()] *)
Definition dict (user : t) : record :=
  [("name"%string, VStr (name user));
   ("user_type"%string, VUserType (user_type user))].
End UserIn.

Module UserOut.
Record t := mk { id : Z; user_type : UserType }.

(** [user_out.dict()]: the returned model seen as a mapping. *)
Definition dict (user_out : t) : record :=
  [("id"%string, VInt (id user_out));
   ("user_type"%string, VUserType (user_type user_out))].
End UserOut.

(** ** [first_project/routers/users.py]

    The state is the dictionary [users] imported from
    [first_project.dummy_db]; its initial contents are not part of the
    handlers, and the statements below quantify over the store.  The bounds
    [Query(ge=1)] and [Path(ge=1)] in the signatures are checked by the
    framework before a handler is entered; the handlers are the function
    bodies, and [route_get_user_by_id] adds the binding of the request to
    the parameters of [get_user_by_id]. *)

Module Users.
Abbreviation db := (list (Z * record)).

Definition NotFound : exn := HTTPException HTTP_404_NOT_FOUND "User not found".

Definition get_all_users : handler db (list record) :=
  list_values.

Definition get_user_by_id (id : Z) : handler db record :=
  present <- contains id ;;
  if negb present then raise NotFound
  else getitem id.

Definition create_user (user : UserIn.t) : handler db UserOut.t :=
  m <- max_key ;;
  let new_id := m + 1 in
  let user_out := UserOut.mk new_id (UserIn.user_type user) in
  setitem new_id (PyDict.display "id"%string (VInt new_id) (UserIn.dict user)) ;;;
  ret user_out.

Definition update_user (new_user : UserIn.t) (user_id : Z) : handler db UserOut.t :=
  present <- contains user_id ;;
  if negb present then raise NotFound
  else
    setitem user_id (PyDict.display "id"%string (VInt user_id) (UserIn.dict new_user)) ;;;
    ret (UserOut.mk user_id (UserIn.user_type new_user)).

Definition delete_user (user_id : Z) : handler db () :=
  present <- contains user_id ;;
  if negb present then raise NotFound
  else delitem user_id ;;; ret ().

(** A request to [GET /users/{user_id}]: the path segment and the query
    string.  The handler declares the single parameter [id], bound from the
    query and checked against [ge=1]; no parameter is bound to the path. *)
Record fetch_request := { path_user_id : string; query_id : Z }.

Definition route_get_user_by_id (req : fetch_request) : handler db record :=
  if decide (1 ≤ query_id req) then get_user_by_id (query_id req)
  else raise RequestValidationError.

(** The calls a client can make on the router, and their replies. *)
Inductive call :=
  | GetAllUsers
  | GetUserById (id : Z)
  | CreateUser (user : UserIn.t)
  | UpdateUser (new_user : UserIn.t) (user_id : Z)
  | DeleteUser (user_id : Z).

Inductive reply :=
  | Records (l : list record)
  | Stored (r : record)
  | Out (u : UserOut.t)
  | NoContent.

Definition serve (c : call) : handler db reply :=
  match c with
  | GetAllUsers => l <- get_all_users ;; ret (Records l)
  | GetUserById id => r <- get_user_by_id id ;; ret (Stored r)
  | CreateUser user => u <- create_user user ;; ret (Out u)
  | UpdateUser new_user user_id => u <- update_user new_user user_id ;; ret (Out u)
  | DeleteUser user_id => delete_user user_id ;;; ret NoContent
  end.

(** The identifier a call hands out: the [id] of the [UserOut] that a
    successful [create_user] returns. *)
Definition created_id (c : call) (o : outcome reply) : option Z :=
  match c, o with
  | CreateUser _, Return (Out u) => Some (UserOut.id u)
  | _, _ => None
  end.

Definition created_ids (cs : list call) (s : db) : list Z :=
  omap (λ co, created_id co.1 co.2) (zip cs (serve_all serve cs s).1).

(** Every record carries, in its field [id], the key it is stored under. *)
Definition ids_agree (s : db) : Prop :=
  Forall (λ kr, PyDict.get "id"%string kr.2 = Some (VInt kr.1)) s.
End Users.

(** ** [first_project/routers/items.py] *)

Module Item.
(** Modelled from the spec: the schema [first_project/schemes/item.py] is
    not among the sources.  "Record: a mapping from field name to value";
    an [Item] is taken to be the mapping that [item.dict()] returns. *)
Definition t : Type := record.
Definition dict (item : t) : record := item.
End Item.

Module Items.
Abbreviation db := (list (Z * record)).

Definition NotFound : exn := HTTPException HTTP_404_NOT_FOUND "Item not found".

Definition show_all_items : handler db (list record) :=
  list_values.

Definition get_item_using_id (item_id : Z) : handler db record :=
  present <- contains item_id ;;
  if negb present then raise NotFound
  else getitem item_id.

Definition create_item (item : Item.t) : handler db record :=
  m <- max_key ;;
  let new_id := m + 1 in
  setitem new_id (PyDict.display "id"%string (VInt new_id) (Item.dict item)) ;;;
  getitem new_id.

Definition update_item (item_id : Z) (new_item : Item.t) : handler db record :=
  present <- contains item_id ;;
  if negb present then raise NotFound
  else
    setitem item_id (PyDict.display "id"%string (VInt item_id) (Item.dict new_item)) ;;;
    getitem item_id.

Definition delete_item (item_id : Z) : handler db () :=
  present <- contains item_id ;;
  if negb present then raise NotFound
  else delitem item_id ;;; ret ().
End Items.

(** ** [Pydantic for data validation/unset_and_patch.py] *)

Module UserUpdate.
(** [name: str | None = None] and [age: int | None = None].  A field of an
    instance is unset ([None]), or was sent by the client, as [null]
    ([Some None]) or as a value. *)
Record t := mk { name : option (option string); age : option (option Z) }.

Definition dump_field {A} (k : string) (inj : A → value)
    (f : option (option A)) : record :=
  match f with
  | None => []
  | Some None => [(k, VNone)]
  | Some (Some a) => [(k, inj a)]
  end.

(** [user_update.model_dump(exclude_unset=True)]: the fields the client
    sent, in the order of their declaration. *)
Definition model_dump_exclude_unset (user_update : t) : record :=
  dump_field "name" VStr (name user_update) ++ dump_field "age" VInt (age user_update).
End UserUpdate.

Module Patch.
(** [update_user] mutates a stored record through the alias [user], so the
    records live in a heap and [dummy_db] maps identifiers to addresses. *)
Record state := mk { dummy_db : list (Z * nat); heap : list record }.

(** The module-level display of [dummy_db]. *)
Definition initial : state :=
  {| dummy_db := [(1, 0%nat); (2, 1%nat); (3, 2%nat)];
     heap := [ [("name"%string, VStr "Alice"); ("age"%string, VInt 30)];
               [("name"%string, VStr "Bob"); ("age"%string, VInt 25)];
               [("name"%string, VStr "Charlie"); ("age"%string, VInt 35)] ] |}.

Definition NotFound : exn := HTTPException HTTP_404_NOT_FOUND "User not found".

(** [list(dummy_db.values())]: the list of the stored objects. *)
Definition get_all_users : handler state (list nat) :=
  st <- read ;; ret (PyDict.values (dummy_db st)).

(** [obj.update(other)] on the object at address [obj].  Every address that
    [dummy_db] holds is allocated; an address outside the heap denotes no
    object and [alter] leaves the heap as it is. *)
Definition dict_update (obj : nat) (other : record) : handler state () :=
  st <- read ;;
  write {| dummy_db := dummy_db st;
           heap := alter (λ r, PyDict.update r other) obj (heap st) |}.

Definition update_user (user_id : Z) (user_update : UserUpdate.t) : handler state nat :=
  st <- read ;;
  if negb (bool_decide (user_id ∈ PyDict.keys (dummy_db st))) then raise NotFound
  else
    match PyDict.get user_id (dummy_db st) with
    | None => raise KeyError
    | Some user =>
        let update_fields := UserUpdate.model_dump_exclude_unset user_update in
        dict_update user update_fields ;;;
        ret user
    end.

(** The record that a reference denotes, as the response serialiser reads
    it. *)
Definition deref (st : state) (obj : nat) : option record := heap st !! obj.

(** The record stored under an identifier. *)
Definition lookup (st : state) (user_id : Z) : option record :=
  obj ← PyDict.get user_id (dummy_db st); deref st obj.

(** A PATCH request: the path parameter and the body. *)
Definition serve (c : Z * UserUpdate.t) : handler state nat :=
  update_user c.1 c.2.
End Patch.

(** ** [response_by_path_parm.py] *)

Module Post.
(** [class post(BaseModel)]: [title: str], [nb_views: int]. *)
Record t := mk { title : string; nb_views : Z }.
End Post.

Module Posts.
Abbreviation db := (list (Z * record)).

(** The module-level display of [dummy_db]. *)
Definition dummy_db : db :=
  [(1, [("title"%string, VStr "first post"); ("nb_views"%string, VInt 10)]);
   (2, [("title"%string, VStr "second post"); ("nb_views"%string, VInt 20)])].

Definition create_post (post : Post.t) : handler db Post.t :=
  ret post.

(** The f-string formats [id] as [str(id)], in decimal. *)
Definition delete_post (id : Z) : handler db record :=
  ret [("message"%string,
        VStr ("post with id " +:+ pretty id +:+ " has been deleted"))].

(** [return dummy_db[id]]: the stored dictionary, as the handler returns it
    (the [response_model] is applied by the framework afterwards). *)
Definition get_post (id : Z) : handler db record :=
  getitem id.

Inductive call :=
  | CreatePost (post : Post.t)
  | DeletePost (id : Z)
  | GetPost (id : Z).

Inductive reply :=
  | Created (post : Post.t)
  | Message (r : record)
  | Found (r : record).

Definition serve (c : call) : handler db reply :=
  match c with
  | CreatePost post => p <- create_post post ;; ret (Created p)
  | DeletePost id => r <- delete_post id ;; ret (Message r)
  | GetPost id => r <- get_post id ;; ret (Found r)
  end.
End Posts.

(** ** Example stores *)

(** A [users] dictionary holding three records of the shape the router
    writes. *)
Definition three_users : Users.db :=
  [(1, PyDict.display "id"%string (VInt 1) (UserIn.dict (UserIn.mk "Alice" ADMIN)));
   (2, PyDict.display "id"%string (VInt 2) (UserIn.dict (UserIn.mk "Bob" CUSTOMER)));
   (3, PyDict.display "id"%string (VInt 3) (UserIn.dict (UserIn.mk "Charlie" CUSTOMER)))].

(** An [items] dictionary holding one record with a [name] and an [age]. *)
Definition one_item : Items.db :=
  [(7, [("name"%string, VStr "Alice"); ("age"%string, VInt 30)])].

(** ** Failure discipline *)

(** The handler [h] raises [nf] exactly on the stores where [absent] holds,
    raises nothing else, and a call that raises leaves the store as it
    found it. *)
Definition fails_iff_absent {S A : Type}
    (h : handler S A) (nf : exn) (absent : S → Prop) : Prop :=
  ∀ s, ((h s).1 = Raise nf ↔ absent s)
       ∧ (∀ e, (h s).1 = Raise e → e = nf ∧ (h s).2 = s).

(** * Properties *)

(** ** Dictionaries *)

Section dict_facts.
Context {K V : Type} `{EqDecision K}.
Implicit Types (k : K) (v : V) (d : list (K * V)).

Lemma get_None k d : PyDict.get k d = None ↔ k ∉ PyDict.keys d.
Proof.
  induction d as [|[k' v'] d IH]; simpl.
  - split; [intros _; apply not_elem_of_nil | done].
  - rewrite not_elem_of_cons. destruct (decide (k = k')) as [->|Hne].
    + split; [done | by intros [? _]].
    + rewrite IH. split; [by split | by intros [_ ?]].
Qed.

Lemma get_is_Some k d : is_Some (PyDict.get k d) ↔ k ∈ PyDict.keys d.
Proof.
  rewrite <- not_eq_None_Some, get_None.
  split; [apply dec_stable | auto].
Qed.

Lemma contains_true k d : PyDict.contains k d = true ↔ k ∈ PyDict.keys d.
Proof.
  rewrite <- get_is_Some. unfold PyDict.contains.
  destruct (PyDict.get k d) as [v|]; split; done.
Qed.

Lemma contains_false k d : PyDict.contains k d = false ↔ k ∉ PyDict.keys d.
Proof. rewrite <- contains_true. destruct (PyDict.contains k d); naive_solver. Qed.

Lemma get_setitem_eq k v d : PyDict.get k (PyDict.setitem k v d) = Some v.
Proof.
  induction d as [|[k' v'] d IH]; simpl.
  - by rewrite decide_True.
  - destruct (decide (k = k')) as [->|Hne]; simpl.
    + by rewrite decide_True.
    + by rewrite decide_False.
Qed.

Lemma get_setitem_ne k k' v d :
  k ≠ k' → PyDict.get k' (PyDict.setitem k v d) = PyDict.get k' d.
Proof.
  intros Hne. induction d as [|[k0 v0] d IH]; simpl.
  - by rewrite decide_False.
  - destruct (decide (k = k0)) as [->|]; simpl.
    + by rewrite !decide_False.
    + by rewrite IH.
Qed.

Lemma setitem_fresh k v d :
  k ∉ PyDict.keys d → PyDict.setitem k v d = d ++ [(k, v)].
Proof.
  induction d as [|[k' v'] d IH]; simpl; [done|].
  rewrite not_elem_of_cons. intros [Hne Hd].
  rewrite decide_False by done. by rewrite IH.
Qed.

Lemma keys_setitem_present k v d :
  k ∈ PyDict.keys d → PyDict.keys (PyDict.setitem k v d) = PyDict.keys d.
Proof.
  induction d as [|[k' v'] d IH]; simpl.
  - by intros ?%elem_of_nil.
  - destruct (decide (k = k')) as [->|Hne]; simpl; [done|].
    rewrite elem_of_cons. intros [?|Hin]; [done|].
    unfold PyDict.keys in *. by rewrite IH.
Qed.

Lemma length_setitem_present k v d :
  k ∈ PyDict.keys d → length (PyDict.setitem k v d) = length d.
Proof.
  intros Hin. apply keys_setitem_present with (v := v) in Hin.
  apply (f_equal length) in Hin. unfold PyDict.keys in Hin.
  by rewrite !length_fmap in Hin.
Qed.

Lemma setitem_setitem k v v' d :
  PyDict.setitem k v (PyDict.setitem k v' d) = PyDict.setitem k v d.
Proof.
  induction d as [|[k0 v0] d IH]; simpl.
  - by rewrite decide_True.
  - destruct (decide (k = k0)) as [->|]; simpl.
    + by rewrite decide_True.
    + by rewrite decide_False, IH.
Qed.

Lemma keys_delitem k d :
  PyDict.keys (PyDict.delitem k d) = filter (λ k', k' ≠ k) (PyDict.keys d).
Proof.
  unfold PyDict.keys, PyDict.delitem.
  induction d as [|[k' v'] d IH]; simpl; [done|].
  rewrite !filter_cons. simpl.
  destruct (decide (k' ≠ k)); simpl; [f_equal|]; apply IH.
Qed.

Lemma get_delitem_eq k d : PyDict.get k (PyDict.delitem k d) = None.
Proof.
  apply get_None. rewrite keys_delitem, list_elem_of_filter. by intros [? _].
Qed.

Lemma get_delitem_ne k k' d :
  k ≠ k' → PyDict.get k' (PyDict.delitem k d) = PyDict.get k' d.
Proof.
  intros Hne. unfold PyDict.delitem.
  induction d as [|[k0 v0] d IH]; simpl; [done|].
  rewrite filter_cons. simpl.
  destruct (decide (k0 ≠ k)) as [Hk|Hk]; simpl.
  - by rewrite IH.
  - apply dec_stable in Hk. subst k0. by rewrite decide_False.
Qed.

Lemma delitem_absent k d : k ∉ PyDict.keys d → PyDict.delitem k d = d.
Proof.
  unfold PyDict.delitem, PyDict.keys.
  induction d as [|[k' v'] d IH]; simpl; [done|].
  rewrite not_elem_of_cons. intros [Hne Hd].
  rewrite filter_cons. simpl. rewrite decide_True by done. by rewrite IH.
Qed.

Lemma wf_setitem k v d : PyDict.wf d → PyDict.wf (PyDict.setitem k v d).
Proof.
  unfold PyDict.wf. intros Hwf.
  destruct (decide (k ∈ PyDict.keys d)) as [Hin|Hout].
  - by rewrite keys_setitem_present.
  - rewrite setitem_fresh by done. unfold PyDict.keys in *.
    rewrite fmap_app. simpl. rewrite NoDup_app. split; [done|].
    split; [|apply NoDup_singleton].
    intros x Hx ->%list_elem_of_singleton. done.
Qed.

Lemma wf_delitem k d : PyDict.wf d → PyDict.wf (PyDict.delitem k d).
Proof. unfold PyDict.wf. rewrite keys_delitem. apply NoDup_filter. Qed.

(** [d.update(other)] on disjoint dictionaries appends [other]. *)
Lemma update_disjoint d other :
  NoDup (PyDict.keys d ++ PyDict.keys other) →
  PyDict.update d other = d ++ other.
Proof.
  unfold PyDict.update. revert d.
  induction other as [|[k v] other IH]; intros d Hnd; simpl.
  - by rewrite app_nil_r.
  - simpl in Hnd. apply NoDup_app in Hnd as (Hd & Hdisj & Hother).
    apply NoDup_cons in Hother as [Hk Hother].
    rewrite setitem_fresh by (intros Hin; eapply Hdisj; [done|left]).
    rewrite IH; [by rewrite <- app_assoc|].
    unfold PyDict.keys in *. rewrite fmap_app. simpl.
    rewrite !NoDup_app. split; [split; [done|] |].
    + split; [|apply NoDup_singleton].
      intros x Hx ->%list_elem_of_singleton. eapply Hdisj; [done|left].
    + split; [|done]. intros x [Hx| ->%list_elem_of_singleton]%elem_of_app Hx'.
      * eapply Hdisj; [done|by right].
      * done.
Qed.

(** [d.update(other)] read back: [other] wins, [d] shows through elsewhere. *)
Lemma get_update k d other :
  PyDict.wf other →
  PyDict.get k (PyDict.update d other) =
    match PyDict.get k other with
    | Some v => Some v
    | None => PyDict.get k d
    end.
Proof.
  unfold PyDict.update, PyDict.wf. revert d.
  induction other as [|[k' v'] other IH]; intros d Hwf; simpl; [done|].
  simpl in Hwf. apply NoDup_cons in Hwf as [Hk' Hwf].
  rewrite IH by done. destruct (decide (k = k')) as [->|Hne].
  - apply get_None in Hk'. rewrite Hk'. apply get_setitem_eq.
  - rewrite get_setitem_ne by done. done.
Qed.

Lemma keys_update_present d other :
  PyDict.keys other ⊆ PyDict.keys d →
  PyDict.keys (PyDict.update d other) = PyDict.keys d.
Proof.
  unfold PyDict.update. revert d.
  induction other as [|[k v] other IH]; intros d Hsub; simpl; [done|].
  assert (Hk : k ∈ PyDict.keys d) by (apply Hsub; left).
  rewrite IH; [by apply keys_setitem_present|].
  rewrite keys_setitem_present by done.
  intros x Hx. apply Hsub. by right.
Qed.

(** Keys bound in neither dictionary stay unbound by [d.update(other)]. *)
Lemma get_update_None k d other :
  PyDict.get k d = None → k ∉ PyDict.keys other →
  PyDict.get k (PyDict.update d other) = None.
Proof.
  unfold PyDict.update. revert d.
  induction other as [|[k' v'] other IH]; intros d Hd Hk; simpl; [done|].
  simpl in Hk. apply not_elem_of_cons in Hk as [Hne Hk].
  apply IH; [|done]. by rewrite get_setitem_ne.
Qed.

Lemma get_snoc_fresh k v d :
  k ∉ PyDict.keys d → PyDict.get k (d ++ [(k, v)]) = Some v.
Proof. intros Hk. rewrite <- setitem_fresh by done. apply get_setitem_eq. Qed.

Lemma get_snoc_ne k k' v d :
  k ≠ k' → PyDict.get k' (d ++ [(k, v)]) = PyDict.get k' d.
Proof.
  intros Hne. induction d as [|[k0 v0] d IH]; simpl.
  - by rewrite decide_False.
  - by rewrite IH.
Qed.

(** A bound key sits at some position of the dictionary. *)
Lemma get_Some_lookup k v d :
  PyDict.get k d = Some v → ∃ i : nat, d !! i = Some (k, v).
Proof.
  induction d as [|[k' v'] d IH]; simpl; [done|].
  destruct (decide (k = k')) as [->|Hne].
  - intros [= ->]. by exists 0%nat.
  - intros [i Hi]%IH. by exists (S i).
Qed.

Lemma keys_lookup (d : list (K * V)) (i : nat) :
  PyDict.keys d !! i = fst <$> d !! i.
Proof. apply list_lookup_fmap. Qed.

Lemma values_lookup (d : list (K * V)) (i : nat) :
  PyDict.values d !! i = snd <$> d !! i.
Proof. apply list_lookup_fmap. Qed.
End dict_facts.

(** ** [max] over the keys *)

Lemma foldl_max_le (l : list Z) (x : Z) : x ≤ foldl Z.max x l.
Proof.
  revert x. induction l as [|y l IH]; intros x; simpl; [lia|].
  specialize (IH (Z.max x y)). lia.
Qed.

Lemma foldl_max_upper (l : list Z) (x k : Z) : k ∈ l → k ≤ foldl Z.max x l.
Proof.
  revert x. induction l as [|y l IH]; intros x; simpl.
  - by intros ?%elem_of_nil.
  - intros [->|Hin]%elem_of_cons; [|by apply IH].
    pose proof (foldl_max_le l (Z.max x y)). lia.
Qed.

Lemma foldl_max_elem (l : list Z) (x : Z) : foldl Z.max x l ∈ x :: l.
Proof.
  revert x. induction l as [|y l IH]; intros x; simpl; [left|].
  specialize (IH (Z.max x y)). apply elem_of_cons in IH as [Heq|Hin].
  - rewrite Heq. destruct (Z.max_spec x y) as [[_ ->]|[_ ->]];
      [right; left | left].
  - right. by right.
Qed.

Lemma py_max_Some (l : list Z) (m : Z) :
  py_max l = Some m → m ∈ l ∧ ∀ k, k ∈ l → k ≤ m.
Proof.
  destruct l as [|x l]; simpl; [done|]. intros [= <-]. split.
  - apply foldl_max_elem.
  - intros k [->|Hin]%elem_of_cons;
      [apply foldl_max_le | by apply foldl_max_upper].
Qed.

Lemma py_max_is_Some (l : list Z) : l ≠ [] → is_Some (py_max l).
Proof. destruct l; [done | by eexists]. Qed.

Lemma py_max_None (l : list Z) : py_max l = None ↔ l = [].
Proof. by destruct l. Qed.

(** Appending a number above the maximum makes it the maximum. *)
Lemma py_max_snoc (l : list Z) (m n : Z) :
  py_max l = Some m → m ≤ n → py_max (l ++ [n]) = Some n.
Proof.
  destruct l as [|x l]; simpl; [done|]. intros [= <-] Hle.
  rewrite foldl_app. simpl. f_equal. lia.
Qed.

Lemma py_max_fresh (l : list Z) (m : Z) : py_max l = Some m → m + 1 ∉ l.
Proof.
  intros [_ Hub]%py_max_Some Hin. specialize (Hub _ Hin). lia.
Qed.

(** ** The handlers of [users.py], evaluated *)

Module UsersFacts.
Import Users.

(** The record that [create_user] and [update_user] build for [user]. *)
Lemma display_user (n : Z) (user : UserIn.t) :
  PyDict.display "id"%string (VInt n) (UserIn.dict user) =
    [("id"%string, VInt n);
     ("name"%string, VStr (UserIn.name user));
     ("user_type"%string, VUserType (UserIn.user_type user))].
Proof. reflexivity. Qed.

Lemma get_all_users_eq (s : db) : get_all_users s = (Return (PyDict.values s), s).
Proof. reflexivity. Qed.

Lemma get_user_by_id_eq (id : Z) (s : db) :
  get_user_by_id id s =
    (match PyDict.get id s with Some r => Return r | None => Raise NotFound end, s).
Proof.
  unfold get_user_by_id, contains, getitem, bind, read, ret, raise, PyDict.contains.
  destruct (PyDict.get id s) eqn:Hget; simpl; by rewrite ?Hget.
Qed.

Lemma create_user_eq (user : UserIn.t) (s : db) :
  create_user user s =
    match py_max (PyDict.keys s) with
    | None => (Raise ValueError, s)
    | Some m =>
        (Return (UserOut.mk (m + 1) (UserIn.user_type user)),
         s ++ [(m + 1, PyDict.display "id"%string (VInt (m + 1)) (UserIn.dict user))])
    end.
Proof.
  unfold create_user, max_key, setitem, bind, read, write, ret, raise.
  destruct (py_max (PyDict.keys s)) as [m|] eqn:Hmax; [|done].
  by rewrite setitem_fresh by by apply py_max_fresh.
Qed.

Lemma update_user_eq (new_user : UserIn.t) (user_id : Z) (s : db) :
  update_user new_user user_id s =
    if PyDict.contains user_id s
    then (Return (UserOut.mk user_id (UserIn.user_type new_user)),
          PyDict.setitem user_id
            (PyDict.display "id"%string (VInt user_id) (UserIn.dict new_user)) s)
    else (Raise NotFound, s).
Proof.
  unfold update_user, contains, setitem, bind, read, write, ret, raise.
  by destruct (PyDict.contains user_id s).
Qed.

Lemma delete_user_eq (user_id : Z) (s : db) :
  delete_user user_id s =
    if PyDict.contains user_id s
    then (Return (), PyDict.delitem user_id s)
    else (Raise NotFound, s).
Proof.
  unfold delete_user, contains, delitem, bind, read, write, ret, raise.
  destruct (PyDict.contains user_id s) eqn:Hin; simpl; by rewrite ?Hin.
Qed.
End UsersFacts.

(** ** The handlers of [items.py], evaluated *)

Module ItemsFacts.
Import Items.

Lemma show_all_items_eq (s : db) : show_all_items s = (Return (PyDict.values s), s).
Proof. reflexivity. Qed.

Lemma get_item_using_id_eq (item_id : Z) (s : db) :
  get_item_using_id item_id s =
    (match PyDict.get item_id s with Some r => Return r | None => Raise NotFound end, s).
Proof.
  unfold get_item_using_id, contains, getitem, bind, read, ret, raise, PyDict.contains.
  destruct (PyDict.get item_id s) eqn:Hget; simpl; by rewrite ?Hget.
Qed.

Lemma create_item_eq (item : Item.t) (s : db) :
  create_item item s =
    match py_max (PyDict.keys s) with
    | None => (Raise ValueError, s)
    | Some m =>
        (Return (PyDict.display "id"%string (VInt (m + 1)) (Item.dict item)),
         s ++ [(m + 1, PyDict.display "id"%string (VInt (m + 1)) (Item.dict item))])
    end.
Proof.
  unfold create_item, max_key, setitem, getitem, bind, read, write, ret, raise.
  destruct (py_max (PyDict.keys s)) as [m|] eqn:Hmax; [|done].
  rewrite get_setitem_eq.
  by rewrite setitem_fresh by by apply py_max_fresh.
Qed.

Lemma update_item_eq (item_id : Z) (new_item : Item.t) (s : db) :
  update_item item_id new_item s =
    if PyDict.contains item_id s
    then (Return (PyDict.display "id"%string (VInt item_id) (Item.dict new_item)),
          PyDict.setitem item_id
            (PyDict.display "id"%string (VInt item_id) (Item.dict new_item)) s)
    else (Raise NotFound, s).
Proof.
  unfold update_item, contains, setitem, getitem, bind, read, write, ret, raise.
  destruct (PyDict.contains item_id s); [|done].
  cbn [negb]. by rewrite get_setitem_eq.
Qed.

Lemma delete_item_eq (item_id : Z) (s : db) :
  delete_item item_id s =
    if PyDict.contains item_id s
    then (Return (), PyDict.delitem item_id s)
    else (Raise NotFound, s).
Proof.
  unfold delete_item, contains, delitem, bind, read, write, ret, raise.
  destruct (PyDict.contains item_id s) eqn:Hin; simpl; by rewrite ?Hin.
Qed.

(** A caller that does not send an [id] gets it prepended. *)
Lemma display_item (n : Z) (item : Item.t) :
  PyDict.wf item → "id"%string ∉ PyDict.keys item →
  PyDict.display "id"%string (VInt n) (Item.dict item) = ("id"%string, VInt n) :: item.
Proof.
  intros Hwf Hid. unfold PyDict.display, Item.dict.
  rewrite update_disjoint; [done|]. simpl. by apply NoDup_cons.
Qed.
End ItemsFacts.

(** ** The handlers of [unset_and_patch.py], evaluated *)

Module PatchFacts.
Import Patch.

Lemma patch_user_eq (user_id : Z) (user_update : UserUpdate.t) (st : state) :
  update_user user_id user_update st =
    match PyDict.get user_id (dummy_db st) with
    | None => (Raise NotFound, st)
    | Some user =>
        (Return user,
         {| dummy_db := dummy_db st;
            heap := alter
              (λ r, PyDict.update r (UserUpdate.model_dump_exclude_unset user_update))
              user (heap st) |})
    end.
Proof.
  unfold update_user, dict_update, bind, read, write, ret, raise.
  destruct (PyDict.get user_id (dummy_db st)) as [user|] eqn:Hget.
  - rewrite bool_decide_eq_true_2; [done|].
    apply get_is_Some. by eexists.
  - rewrite bool_decide_eq_false_2; [done|]. by apply get_None.
Qed.

(** The dump of a [UserUpdate] has distinct keys. *)
Lemma model_dump_wf (user_update : UserUpdate.t) :
  PyDict.wf (UserUpdate.model_dump_exclude_unset user_update).
Proof.
  destruct user_update as [[[n|]|] [[a|]|]]; unfold PyDict.wf; simpl;
    by apply (bool_decide_unpack _).
Qed.
End PatchFacts.

(** ** Identifier assignment *)

Module IdFacts.
Import Users UsersFacts.

Lemma serve_create_eq (user : UserIn.t) (s : db) (m : Z) :
  py_max (PyDict.keys s) = Some m →
  serve (CreateUser user) s =
    (Return (Out (UserOut.mk (m + 1) (UserIn.user_type user))),
     s ++ [(m + 1, PyDict.display "id"%string (VInt (m + 1)) (UserIn.dict user))]).
Proof.
  intros Hmax. unfold serve, bind. rewrite create_user_eq, Hmax. done.
Qed.

Lemma keys_snoc {V} (s : list (Z * V)) (k : Z) (v : V) :
  PyDict.keys (s ++ [(k, v)]) = PyDict.keys s ++ [k].
Proof. unfold PyDict.keys. by rewrite fmap_app. Qed.

Lemma created_ids_cons (c : call) (cs : list call) (s : db) :
  created_ids (c :: cs) s =
    match created_id c (serve c s).1 with
    | Some i => i :: created_ids cs (serve c s).2
    | None => created_ids cs (serve c s).2
    end.
Proof.
  unfold created_ids. cbn [serve_all].
  destruct (serve c s) as [o s']. cbn [fst snd].
  destruct (serve_all serve cs s') as [os s'']. done.
Qed.

(** From a store whose greatest key is [m], a run of [create_user] calls
    hands out [m + 1], [m + 2], ... in turn. *)
Lemma created_ids_creates (users : list UserIn.t) (s : db) (m : Z) :
  py_max (PyDict.keys s) = Some m →
  created_ids (CreateUser <$> users) s = seqZ (m + 1) (Z.of_nat (length users)).
Proof.
  revert s m. induction users as [|user users IH]; intros s m Hmax.
  - done.
  - rewrite fmap_cons, created_ids_cons, (serve_create_eq _ _ m) by done.
    cbn [fst snd created_id UserOut.id length].
    rewrite seqZ_cons by lia. f_equal.
    rewrite (IH _ (m + 1)).
    + f_equal; lia.
    + rewrite keys_snoc. apply py_max_snoc with m; [done | lia].
Qed.

Lemma seqZ_increasing (m n : Z) : StronglySorted Z.lt (seqZ m n).
Proof.
  destruct (decide (n ≤ 0)) as [Hn|Hn]; [rewrite seqZ_nil by done; constructor|].
  rewrite <- (Z2Nat.id n) by lia. generalize (Z.to_nat n) as i. clear.
  intros i. revert m. induction i as [|i IH]; intros m.
  - rewrite seqZ_nil by lia. constructor.
  - rewrite seqZ_cons by lia. constructor.
    + replace (Z.pred (Z.of_nat (S i))) with (Z.of_nat i) by lia. apply IH.
    + apply Forall_seqZ. lia.
Qed.

(** The same run on [items]: the replies are the stored records, keyed
    [m + 1], [m + 2], ... *)
Lemma create_items_run (items : list Item.t) (s : Items.db) (m : Z) :
  py_max (PyDict.keys s) = Some m →
  (serve_all Items.create_item items s).1 =
    imap (λ i item, Return (PyDict.display "id"%string
                              (VInt (m + 1 + Z.of_nat i)) (Item.dict item))) items
  ∧ PyDict.keys (serve_all Items.create_item items s).2 =
      PyDict.keys s ++ seqZ (m + 1) (Z.of_nat (length items)).
Proof.
  revert s m. induction items as [|item items IH]; intros s m Hmax.
  - simpl. by rewrite app_nil_r.
  - cbn [serve_all]. rewrite ItemsFacts.create_item_eq, Hmax.
    match goal with |- context [serve_all _ _ ?s1] =>
      destruct (IH s1 (m + 1)) as [IH1 IH2] end.
    { rewrite keys_snoc. apply py_max_snoc with m; [done | lia]. }
    destruct (serve_all Items.create_item items _) as [os s''].
    cbn [fst snd] in *. split.
    + rewrite imap_cons, IH1. f_equal; [by rewrite Z.add_0_r|].
      apply imap_ext. intros i x _. simpl. do 3 f_equal. lia.
    + rewrite IH2, keys_snoc, <- app_assoc. f_equal.
      cbn [length]. rewrite (seqZ_cons (m + 1)) by lia. simpl. f_equal.
      f_equal; lia.
Qed.
End IdFacts.

(** ** Runs of calls on the users router *)

Module RunFacts.
Import Users UsersFacts IdFacts.

(** An identifier handed out by a call exceeds every key of the store the
    call ran on. *)
Lemma created_id_above (c : call) (s : db) (i k : Z) :
  created_id c (serve c s).1 = Some i → k ∈ PyDict.keys s → k < i.
Proof.
  destruct c as [|id|user|new_user user_id|user_id]; simpl;
    unfold bind; try done.
  rewrite create_user_eq.
  destruct (py_max (PyDict.keys s)) as [m|] eqn:Hmax; [|done].
  simpl. intros [= <-] Hk. apply py_max_Some in Hmax as [_ Hub].
  specialize (Hub _ Hk). lia.
Qed.

(** Only [delete_user k] takes the key [k] out of the store. *)
Lemma serve_keeps_key (c : call) (s : db) (k : Z) :
  k ∈ PyDict.keys s → c ≠ DeleteUser k → k ∈ PyDict.keys (serve c s).2.
Proof.
  intros Hk Hc.
  destruct c as [|id|user|new_user user_id|user_id]; simpl; unfold bind.
  - done.
  - rewrite get_user_by_id_eq. by destruct (PyDict.get id s).
  - rewrite create_user_eq. destruct (py_max (PyDict.keys s)); [|done].
    simpl. rewrite keys_snoc. apply elem_of_app. by left.
  - rewrite update_user_eq.
    destruct (PyDict.contains user_id s) eqn:Hin; [|done].
    simpl. rewrite keys_setitem_present; [done|]. by apply contains_true.
  - rewrite delete_user_eq. destruct (PyDict.contains user_id s); [|done].
    simpl. rewrite keys_delitem. apply list_elem_of_filter. split; [|done].
    congruence.
Qed.

Lemma created_ids_above (cs : list call) (s : db) (k : Z) :
  k ∈ PyDict.keys s → DeleteUser k ∉ cs →
  Forall (λ i, k < i) (created_ids cs s).
Proof.
  revert s. induction cs as [|c cs IH]; intros s Hk Hcs.
  - constructor.
  - apply not_elem_of_cons in Hcs as [Hc Hcs].
    rewrite created_ids_cons.
    assert (Hrest : Forall (λ i, k < i) (created_ids cs (serve c s).2)).
    { apply IH; [|done]. apply serve_keeps_key; [done | congruence]. }
    destruct (created_id c (serve c s).1) as [i|] eqn:Hi; [|done].
    constructor; [|done]. by apply created_id_above with c s.
Qed.
End RunFacts.

(** * The claims *)

(** C1 (counterexample): on the empty store [create_user] raises
    [ValueError], the error of [max] on no keys; no identifier is assigned,
    and in particular not the identifier [1]. *)
Lemma C1_empty_store_counterexample :
  Users.create_user (UserIn.mk "Alice" ADMIN) [] = (Raise ValueError, [])
  ∧ ¬ ∃ s', Users.create_user (UserIn.mk "Alice" ADMIN) [] =
              (Return (UserOut.mk 1 ADMIN), s').
Proof. split; [reflexivity | by intros [s' ?]]. Qed.

(** C1 (amended): on a non-empty store whose greatest key is [m],
    [create_user] and [create_item] assign [m + 1], which exceeds every key
    of the store; a run of [create_user] calls from such a store returns
    the identifiers [m + 1], [m + 2], ..., strictly increasing and pairwise
    distinct, and a run of [create_item] calls stores its records under
    the same keys. *)
Theorem C1_create_assigns_max_plus_one
    (s : list (Z * record)) (user : UserIn.t) (item : Item.t)
    (users : list UserIn.t) (items : list Item.t) :
  s ≠ [] →
  ∃ m,
    py_max (PyDict.keys s) = Some m
    ∧ m ∈ PyDict.keys s
    ∧ (∀ k, k ∈ PyDict.keys s → k ≤ m ∧ k < m + 1)
    ∧ Users.create_user user s =
        (Return (UserOut.mk (m + 1) (UserIn.user_type user)),
         s ++ [(m + 1, PyDict.display "id"%string (VInt (m + 1)) (UserIn.dict user))])
    ∧ Items.create_item item s =
        (Return (PyDict.display "id"%string (VInt (m + 1)) (Item.dict item)),
         s ++ [(m + 1, PyDict.display "id"%string (VInt (m + 1)) (Item.dict item))])
    ∧ Users.created_ids (Users.CreateUser <$> users) s =
        seqZ (m + 1) (Z.of_nat (length users))
    ∧ StronglySorted Z.lt (Users.created_ids (Users.CreateUser <$> users) s)
    ∧ NoDup (Users.created_ids (Users.CreateUser <$> users) s)
    ∧ (serve_all Items.create_item items s).1 =
        imap (λ i item, Return (PyDict.display "id"%string
                                  (VInt (m + 1 + Z.of_nat i)) (Item.dict item))) items
    ∧ PyDict.keys (serve_all Items.create_item items s).2 =
        PyDict.keys s ++ seqZ (m + 1) (Z.of_nat (length items)).
Proof.
  intros Hs.
  destruct (py_max_is_Some (PyDict.keys s)) as [m Hmax].
  { by destruct s. }
  exists m. pose proof (py_max_Some _ _ Hmax) as [Hin Hub].
  split; [done|]. split; [done|]. split.
  { intros k Hk. specialize (Hub _ Hk). lia. }
  rewrite UsersFacts.create_user_eq, ItemsFacts.create_item_eq, Hmax.
  rewrite (IdFacts.created_ids_creates _ _ m) by done.
  destruct (IdFacts.create_items_run items s m Hmax) as [Hreplies Hkeys].
  repeat split; [apply IdFacts.seqZ_increasing | apply NoDup_seqZ | done..].
Qed.

Lemma C1_create_assigns_max_plus_one_witness :
  three_users ≠ []
  ∧ ∃ m,
    py_max (PyDict.keys three_users) = Some m
    ∧ Users.created_ids
        (Users.CreateUser <$> [UserIn.mk "Dora" ADMIN; UserIn.mk "Eli" CUSTOMER])
        three_users = seqZ (m + 1) 2.
Proof.
  split; [done|].
  destruct (C1_create_assigns_max_plus_one three_users (UserIn.mk "Dora" ADMIN) []
              [UserIn.mk "Dora" ADMIN; UserIn.mk "Eli" CUSTOMER] [])
    as (m & Hmax & _ & _ & _ & _ & Hids & _); [done|].
  exists m. split; [exact Hmax | exact Hids].
Defined.

(** C9: [create_user] and [create_item] return on every non-empty store;
    on the empty store they raise [ValueError], which is not the 404 of
    [NotFound], leave the store empty, and so never assign the identifier
    [1]. *)
Theorem C9_create_needs_a_non_empty_store (user : UserIn.t) (item : Item.t) :
  (∀ s : Users.db, s ≠ [] →
     ∃ m, py_max (PyDict.keys s) = Some m
       ∧ (Users.create_user user s).1 = Return (UserOut.mk (m + 1) (UserIn.user_type user))
       ∧ (Items.create_item item s).1 =
           Return (PyDict.display "id"%string (VInt (m + 1)) (Item.dict item)))
  ∧ Users.create_user user [] = (Raise ValueError, [])
  ∧ Items.create_item item [] = (Raise ValueError, [])
  ∧ ValueError ≠ Users.NotFound
  ∧ ValueError ≠ Items.NotFound
  ∧ (∀ out s', Users.create_user user [] ≠ (Return out, s'))
  ∧ (∀ r s', Items.create_item item [] ≠ (Return r, s')).
Proof.
  split; [|by repeat split].
  intros s Hs. destruct (py_max_is_Some (PyDict.keys s)) as [m Hmax].
  { by destruct s. }
  exists m. rewrite UsersFacts.create_user_eq, ItemsFacts.create_item_eq, Hmax.
  done.
Qed.

Lemma C9_create_needs_a_non_empty_store_witness :
  three_users ≠ []
  ∧ ∃ m, py_max (PyDict.keys three_users) = Some m
      ∧ (Users.create_user (UserIn.mk "Dora" ADMIN) three_users).1 =
          Return (UserOut.mk (m + 1) ADMIN)
      ∧ (Items.create_item [] three_users).1 =
          Return (PyDict.display "id"%string (VInt (m + 1)) (Item.dict [])).
Proof.
  split; [done|].
  apply (proj1 (C9_create_needs_a_non_empty_store (UserIn.mk "Dora" ADMIN) [])).
  done.
Defined.

(** C2 (counterexample): after [delete_user 3] on a store with the keys
    1, 2 and 3, the next [create_user] returns the identifier 3 again. *)
Lemma C2_reuse_counterexample :
  (serve_all Users.serve
     [Users.DeleteUser 3; Users.CreateUser (UserIn.mk "Dora" ADMIN)] three_users).1
    = [Return Users.NoContent; Return (Users.Out (UserOut.mk 3 ADMIN))]
  ∧ Users.created_ids
      [Users.DeleteUser 3; Users.CreateUser (UserIn.mk "Dora" ADMIN)] three_users
    = [3].
Proof. split; reflexivity. Qed.

(** C2 (amended): if [delete_user id] succeeds on a store that holds a
    greater key [k], then over every later run of calls that does not
    delete [k], every identifier that a [create_user] hands out is above
    [k]; none of them is [id]. *)
Theorem C2_no_reuse_while_greater_id_stays
    (s s' : Users.db) (id k : Z) (cs : list Users.call) :
  Users.delete_user id s = (Return (), s') →
  k ∈ PyDict.keys s → id < k →
  Users.DeleteUser k ∉ cs →
  Forall (λ i, k < i) (Users.created_ids cs s')
  ∧ id ∉ Users.created_ids cs s'.
Proof.
  intros Hdel Hk Hlt Hcs.
  rewrite UsersFacts.delete_user_eq in Hdel.
  destruct (PyDict.contains id s); [|done].
  injection Hdel as <-.
  assert (Hall : Forall (λ i, k < i) (Users.created_ids cs (PyDict.delitem id s))).
  { apply RunFacts.created_ids_above; [|done].
    rewrite keys_delitem. apply list_elem_of_filter. split; [lia | done]. }
  split; [done|].
  intros Hin. rewrite Forall_forall in Hall. specialize (Hall _ Hin). lia.
Qed.

Lemma C2_no_reuse_while_greater_id_stays_witness :
  Users.delete_user 2 three_users = (Return (), PyDict.delitem 2 three_users)
  ∧ 3 ∈ PyDict.keys three_users
  ∧ 2 < 3
  ∧ (Users.DeleteUser 3 ∉
      ([Users.CreateUser (UserIn.mk "Dora" ADMIN); Users.DeleteUser 1] : list Users.call))
  ∧ Forall (λ i, 3 < i)
      (Users.created_ids [Users.CreateUser (UserIn.mk "Dora" ADMIN); Users.DeleteUser 1]
         (PyDict.delitem 2 three_users))
  ∧ 2 ∉ Users.created_ids [Users.CreateUser (UserIn.mk "Dora" ADMIN); Users.DeleteUser 1]
         (PyDict.delitem 2 three_users).
Proof.
  assert (H1 : Users.delete_user 2 three_users = (Return (), PyDict.delitem 2 three_users))
    by reflexivity.
  assert (H2 : 3 ∈ PyDict.keys three_users) by by apply (bool_decide_unpack _).
  assert (H3 : 2 < 3) by lia.
  assert (H4 : Users.DeleteUser 3 ∉
                 ([Users.CreateUser (UserIn.mk "Dora" ADMIN); Users.DeleteUser 1]
                    : list Users.call)).
  { intros Hin. repeat (apply elem_of_cons in Hin as [Hin|Hin]; [done|]).
    by apply elem_of_nil in Hin. }
  repeat (split; [assumption|]).
  exact (C2_no_reuse_while_greater_id_stays _ _ _ _ _ H1 H2 H3 H4).
Defined.

(** C3: for an identifier in [dummy_db], [update_user] (PATCH) returns the
    stored record after writing into it exactly the fields the client sent:
    a sent field takes the sent value, [null] included; every other field
    of the record, and every other object, is as before.  On
    [{"name": "Alice", "age": 30}] the body [{"age": 31}] leaves
    [{"name": "Alice", "age": 31}]. *)
Theorem C3_merge_updates_only_supplied_keys
    (st : Patch.state) (user_id : Z) (user : nat) (r : record)
    (user_update : UserUpdate.t) :
  PyDict.get user_id (Patch.dummy_db st) = Some user →
  Patch.heap st !! user = Some r →
  let update_fields := UserUpdate.model_dump_exclude_unset user_update in
  ∃ st' r',
    Patch.update_user user_id user_update st = (Return user, st')
    ∧ Patch.dummy_db st' = Patch.dummy_db st
    ∧ Patch.lookup st' user_id = Some r'
    ∧ Patch.deref st' user = Some r'
    ∧ r' = PyDict.update r update_fields
    ∧ (∀ k v, PyDict.get k update_fields = Some v → PyDict.get k r' = Some v)
    ∧ (∀ k, k ∉ PyDict.keys update_fields → PyDict.get k r' = PyDict.get k r)
    ∧ (∀ obj, obj ≠ user → Patch.deref st' obj = Patch.deref st obj)
    ∧ PyDict.get "name"%string update_fields =
        from_option VStr VNone <$> UserUpdate.name user_update
    ∧ PyDict.get "age"%string update_fields =
        from_option VInt VNone <$> UserUpdate.age user_update
    ∧ (UserUpdate.age user_update = Some None →
       PyDict.get "age"%string r' = Some VNone)
    ∧ (UserUpdate.name user_update = None →
       PyDict.get "name"%string r' = PyDict.get "name"%string r)
    ∧ (r = [("name"%string, VStr "Alice"); ("age"%string, VInt 30)] →
       user_update = UserUpdate.mk None (Some (Some 31)) →
       r' = [("name"%string, VStr "Alice"); ("age"%string, VInt 31)]).
Proof.
  intros Hget Hheap update_fields.
  pose proof (PatchFacts.model_dump_wf user_update) as Hwf.
  assert (Hname : PyDict.get "name"%string update_fields =
                    from_option VStr VNone <$> UserUpdate.name user_update).
  { subst update_fields. by destruct user_update as [[[n|]|] [[a|]|]]. }
  assert (Hage : PyDict.get "age"%string update_fields =
                   from_option VInt VNone <$> UserUpdate.age user_update).
  { subst update_fields. by destruct user_update as [[[n|]|] [[a|]|]]. }
  exists {| Patch.dummy_db := Patch.dummy_db st;
            Patch.heap := alter (λ r0, PyDict.update r0 update_fields) user
                            (Patch.heap st) |}, (PyDict.update r update_fields).
  rewrite PatchFacts.patch_user_eq, Hget.
  unfold Patch.lookup, Patch.deref. cbn [Patch.dummy_db Patch.heap].
  rewrite Hget. cbn [mbind option_bind].
  rewrite list_lookup_alter_eq, Hheap. cbn [fmap option_fmap option_map].
  repeat split; try done.
  - intros k v Hk. rewrite get_update by done. fold update_fields. by rewrite Hk.
  - intros k Hk%get_None. rewrite get_update by done. fold update_fields.
    by rewrite Hk.
  - intros obj Hobj. by rewrite list_lookup_alter_ne.
  - intros Hnull. rewrite get_update by done. fold update_fields.
    by rewrite Hage, Hnull.
  - intros Hunset. rewrite get_update by done. fold update_fields.
    by rewrite Hname, Hunset.
  - intros -> ->. reflexivity.
Qed.

Lemma C3_merge_updates_only_supplied_keys_witness :
  PyDict.get 1 (Patch.dummy_db Patch.initial) = Some 0%nat
  ∧ Patch.heap Patch.initial !! 0%nat =
      Some [("name"%string, VStr "Alice"); ("age"%string, VInt 30)]
  ∧ ∃ st',
      Patch.update_user 1 (UserUpdate.mk None (Some (Some 31))) Patch.initial
        = (Return 0%nat, st')
      ∧ Patch.lookup st' 1 =
          Some [("name"%string, VStr "Alice"); ("age"%string, VInt 31)].
Proof.
  assert (H1 : PyDict.get 1 (Patch.dummy_db Patch.initial) = Some 0%nat)
    by reflexivity.
  assert (H2 : Patch.heap Patch.initial !! 0%nat =
                 Some [("name"%string, VStr "Alice"); ("age"%string, VInt 30)])
    by reflexivity.
  split; [exact H1|]. split; [exact H2|].
  destruct (C3_merge_updates_only_supplied_keys Patch.initial 1 0%nat _
              (UserUpdate.mk None (Some (Some 31))) H1 H2)
    as (st' & r' & Hrun & _ & Hlook & _ & _ & _ & _ & _ & _ & _ & _ & _ & Hex).
  exists st'. split; [exact Hrun|].
  rewrite Hlook. f_equal. by apply Hex.
Defined.

(** ** The 404 guard *)

Section guard.
Context {V A : Type}.

(** A handler that tests [id in d] first and only then works on [d]. *)
Lemma guarded_fails_iff_absent
    (h : handler (list (Z * V)) A) (nf : exn) (id : Z)
    (body : list (Z * V) → A * list (Z * V)) :
  (∀ s, h s = if PyDict.contains id s
              then (Return (body s).1, (body s).2)
              else (Raise nf, s)) →
  fails_iff_absent h nf (λ s, id ∉ PyDict.keys s).
Proof.
  intros Hh s. rewrite Hh, <- contains_false.
  destruct (PyDict.contains id s); simpl.
  - split; [split; done | done].
  - split; [done|]. by intros e [= <-].
Qed.
End guard.

(** C4: [get], [replace], [merge] and [delete] raise the 404 of [NotFound]
    exactly when the identifier is not a key of the store, they raise
    nothing else, and a call that raises leaves the store as it was.  After
    a successful [delete] of an identifier, [get] and a second [delete] of
    it raise [NotFound]. *)
Theorem C4_not_found_iff_absent
    (id : Z) (user : UserIn.t) (item : Item.t) (user_update : UserUpdate.t) :
  fails_iff_absent (Users.get_user_by_id id) Users.NotFound
    (λ s, id ∉ PyDict.keys s)
  ∧ fails_iff_absent (Users.update_user user id) Users.NotFound
      (λ s, id ∉ PyDict.keys s)
  ∧ fails_iff_absent (Users.delete_user id) Users.NotFound
      (λ s, id ∉ PyDict.keys s)
  ∧ fails_iff_absent (Items.get_item_using_id id) Items.NotFound
      (λ s, id ∉ PyDict.keys s)
  ∧ fails_iff_absent (Items.update_item id item) Items.NotFound
      (λ s, id ∉ PyDict.keys s)
  ∧ fails_iff_absent (Items.delete_item id) Items.NotFound
      (λ s, id ∉ PyDict.keys s)
  ∧ fails_iff_absent (Patch.update_user id user_update) Patch.NotFound
      (λ st, id ∉ PyDict.keys (Patch.dummy_db st))
  ∧ (∀ s s', Users.delete_user id s = (Return (), s') →
       Users.get_user_by_id id s' = (Raise Users.NotFound, s')
       ∧ Users.delete_user id s' = (Raise Users.NotFound, s'))
  ∧ (∀ s s', Items.delete_item id s = (Return (), s') →
       Items.get_item_using_id id s' = (Raise Items.NotFound, s')
       ∧ Items.delete_item id s' = (Raise Items.NotFound, s')).
Proof.
  repeat apply conj.
  - apply guarded_fails_iff_absent with (body := λ s, (default [] (PyDict.get id s), s)).
    intros s. rewrite UsersFacts.get_user_by_id_eq. unfold PyDict.contains.
    by destruct (PyDict.get id s).
  - eapply guarded_fails_iff_absent with (body := λ s, (_, _)).
    intros s. apply UsersFacts.update_user_eq.
  - eapply guarded_fails_iff_absent with (body := λ s, (_, _)).
    intros s. apply UsersFacts.delete_user_eq.
  - apply guarded_fails_iff_absent with (body := λ s, (default [] (PyDict.get id s), s)).
    intros s. rewrite ItemsFacts.get_item_using_id_eq. unfold PyDict.contains.
    by destruct (PyDict.get id s).
  - eapply guarded_fails_iff_absent with (body := λ s, (_, _)).
    intros s. apply ItemsFacts.update_item_eq.
  - eapply guarded_fails_iff_absent with (body := λ s, (_, _)).
    intros s. apply ItemsFacts.delete_item_eq.
  - intros st. rewrite PatchFacts.patch_user_eq, <- get_None.
    destruct (PyDict.get id (Patch.dummy_db st)); simpl.
    + split; [split; done | done].
    + split; [done|]. by intros e [= <-].
  - intros s s'. rewrite UsersFacts.delete_user_eq.
    destruct (PyDict.contains id s); [|done]. intros [= <-].
    rewrite UsersFacts.get_user_by_id_eq, UsersFacts.delete_user_eq.
    unfold PyDict.contains. by rewrite get_delitem_eq.
  - intros s s'. rewrite ItemsFacts.delete_item_eq.
    destruct (PyDict.contains id s); [|done]. intros [= <-].
    rewrite ItemsFacts.get_item_using_id_eq, ItemsFacts.delete_item_eq.
    unfold PyDict.contains. by rewrite get_delitem_eq.
Qed.

Lemma C4_not_found_iff_absent_witness :
  Users.delete_user 2 three_users = (Return (), PyDict.delitem 2 three_users)
  ∧ Users.get_user_by_id 2 (PyDict.delitem 2 three_users) =
      (Raise Users.NotFound, PyDict.delitem 2 three_users)
  ∧ Users.delete_user 2 (PyDict.delitem 2 three_users) =
      (Raise Users.NotFound, PyDict.delitem 2 three_users).
Proof.
  assert (H1 : Users.delete_user 2 three_users =
                 (Return (), PyDict.delitem 2 three_users)) by reflexivity.
  split; [exact H1|].
  destruct (C4_not_found_iff_absent 2 (UserIn.mk "Dora" ADMIN) []
              (UserUpdate.mk None None))
    as (_ & _ & _ & _ & _ & _ & _ & Hdel & _).
  exact (Hdel _ _ H1).
Defined.

(** C5: for an identifier in the store, [update_user] and [update_item]
    (PUT) put the display [{'id': id, **fields}] in place of the stored
    record: no field of the old record outside [id] and [fields] is left,
    the other identifiers keep their records, and a second call with the
    same fields leaves the same store.  Replacing
    [{"name": "Alice", "age": 30}] by [{"name": "Bob"}] stores exactly
    [{"id": id, "name": "Bob"}], without [age]. *)
Theorem C5_replace_overwrites_whole_record
    (s : list (Z * record)) (id : Z) (new_user : UserIn.t) (new_item : Item.t) :
  id ∈ PyDict.keys s →
  (∃ s',
      Users.update_user new_user id s =
        (Return (UserOut.mk id (UserIn.user_type new_user)), s')
      ∧ PyDict.get id s' =
          Some [("id"%string, VInt id);
                ("name"%string, VStr (UserIn.name new_user));
                ("user_type"%string, VUserType (UserIn.user_type new_user))]
      ∧ PyDict.keys s' = PyDict.keys s
      ∧ (∀ id', id' ≠ id → PyDict.get id' s' = PyDict.get id' s)
      ∧ (Users.update_user new_user id s').2 = s')
  ∧ (∃ s' r,
      Items.update_item id new_item s = (Return r, s')
      ∧ r = PyDict.display "id"%string (VInt id) (Item.dict new_item)
      ∧ PyDict.get id s' = Some r
      ∧ (PyDict.wf new_item → "id"%string ∉ PyDict.keys new_item →
         r = ("id"%string, VInt id) :: new_item)
      ∧ (∀ k, k ≠ "id"%string → k ∉ PyDict.keys new_item → PyDict.get k r = None)
      ∧ PyDict.keys s' = PyDict.keys s
      ∧ (∀ id', id' ≠ id → PyDict.get id' s' = PyDict.get id' s)
      ∧ (Items.update_item id new_item s').2 = s')
  ∧ (PyDict.get id s = Some [("name"%string, VStr "Alice"); ("age"%string, VInt 30)] →
     new_item = [("name"%string, VStr "Bob")] →
     PyDict.get id (Items.update_item id new_item s).2 =
       Some [("id"%string, VInt id); ("name"%string, VStr "Bob")]
     ∧ PyDict.get "age"%string
         (default [] (PyDict.get id (Items.update_item id new_item s).2)) = None).
Proof.
  intros Hin. pose proof Hin as Hc%contains_true.
  assert (Hc' : ∀ r, PyDict.contains id (PyDict.setitem id r s) = true).
  { intros r. apply contains_true. by rewrite keys_setitem_present. }
  split; [|split].
  - eexists. rewrite UsersFacts.update_user_eq, Hc. split; [done|].
    rewrite get_setitem_eq, keys_setitem_present by done.
    repeat split; [|].
    + intros id' Hne. by rewrite get_setitem_ne.
    + rewrite UsersFacts.update_user_eq, Hc'. simpl. apply setitem_setitem.
  - eexists _, _. rewrite ItemsFacts.update_item_eq, Hc. split; [done|].
    rewrite get_setitem_eq, keys_setitem_present by done.
    repeat split.
    + intros Hwf Hid. by apply ItemsFacts.display_item.
    + intros k Hk Hout. apply get_update_None; [|done].
      simpl. by rewrite decide_False.
    + intros id' Hne. by rewrite get_setitem_ne.
    + rewrite ItemsFacts.update_item_eq, Hc'. simpl. apply setitem_setitem.
  - intros _ ->. rewrite ItemsFacts.update_item_eq, Hc. simpl.
    by rewrite get_setitem_eq.
Qed.

Lemma C5_replace_overwrites_whole_record_witness :
  7 ∈ PyDict.keys one_item
  ∧ PyDict.get 7 one_item = Some [("name"%string, VStr "Alice"); ("age"%string, VInt 30)]
  ∧ PyDict.get 7 (Items.update_item 7 [("name"%string, VStr "Bob")] one_item).2 =
      Some [("id"%string, VInt 7); ("name"%string, VStr "Bob")]
  ∧ PyDict.get "age"%string
      (default [] (PyDict.get 7
         (Items.update_item 7 [("name"%string, VStr "Bob")] one_item).2)) = None.
Proof.
  assert (H1 : 7 ∈ PyDict.keys one_item) by by apply (bool_decide_unpack _).
  assert (H2 : PyDict.get 7 one_item =
                 Some [("name"%string, VStr "Alice"); ("age"%string, VInt 30)])
    by reflexivity.
  split; [exact H1|]. split; [exact H2|].
  destruct (C5_replace_overwrites_whole_record one_item 7 (UserIn.mk "Bob" ADMIN)
              [("name"%string, VStr "Bob")] H1) as (_ & _ & Hex).
  exact (Hex H2 eq_refl).
Defined.

(** C6: on a non-empty store, [get] with the identifier that the preceding
    [create] assigned returns the record that [create] stored: the fields
    sent, preceded by the assigned [id]. *)
Theorem C6_get_after_create
    (s : list (Z * record)) (user : UserIn.t) (item : Item.t) :
  s ≠ [] →
  ∃ new_id,
    (∃ s',
        Users.create_user user s =
          (Return (UserOut.mk new_id (UserIn.user_type user)), s')
        ∧ Users.get_user_by_id new_id s' =
            (Return (("id"%string, VInt new_id) :: UserIn.dict user), s'))
    ∧ (∃ s' r,
        Items.create_item item s = (Return r, s')
        ∧ Items.get_item_using_id new_id s' = (Return r, s')
        ∧ r = PyDict.display "id"%string (VInt new_id) (Item.dict item)
        ∧ (PyDict.wf item → "id"%string ∉ PyDict.keys item →
           r = ("id"%string, VInt new_id) :: item)).
Proof.
  intros Hs. destruct (py_max_is_Some (PyDict.keys s)) as [m Hmax].
  { by destruct s. }
  pose proof (py_max_fresh _ _ Hmax) as Hfresh.
  exists (m + 1). split.
  - eexists. rewrite UsersFacts.create_user_eq, Hmax. split; [done|].
    rewrite UsersFacts.get_user_by_id_eq, get_snoc_fresh by done. done.
  - eexists _, _. rewrite ItemsFacts.create_item_eq, Hmax. split; [done|].
    rewrite ItemsFacts.get_item_using_id_eq, get_snoc_fresh by done.
    repeat split. intros Hwf Hid. by apply ItemsFacts.display_item.
Qed.

Lemma C6_get_after_create_witness :
  three_users ≠ []
  ∧ ∃ new_id s',
      Users.create_user (UserIn.mk "Dora" ADMIN) three_users =
        (Return (UserOut.mk new_id ADMIN), s')
      ∧ Users.get_user_by_id new_id s' =
          (Return [("id"%string, VInt new_id); ("name"%string, VStr "Dora");
                   ("user_type"%string, VUserType ADMIN)], s').
Proof.
  split; [done|].
  destruct (C6_get_after_create three_users (UserIn.mk "Dora" ADMIN) [])
    as (new_id & (s' & Hc & Hg) & _); [done|].
  exists new_id, s'. split; [exact Hc | exact Hg].
Defined.

(** C7 (counterexample): [create_user] stores a record with a [name] and
    returns a [UserOut], which has none; the value returned is not the
    record stored. *)
Lemma C7_create_user_return_counterexample :
  ∃ s',
    Users.create_user (UserIn.mk "Dora" ADMIN) three_users =
      (Return (UserOut.mk 4 ADMIN), s')
    ∧ PyDict.get 4 s' =
        Some [("id"%string, VInt 4); ("name"%string, VStr "Dora");
              ("user_type"%string, VUserType ADMIN)]
    ∧ UserOut.dict (UserOut.mk 4 ADMIN) =
        [("id"%string, VInt 4); ("user_type"%string, VUserType ADMIN)]
    ∧ PyDict.get "name"%string (UserOut.dict (UserOut.mk 4 ADMIN)) = None
    ∧ UserOut.dict (UserOut.mk 4 ADMIN) ≠
        [("id"%string, VInt 4); ("name"%string, VStr "Dora");
         ("user_type"%string, VUserType ADMIN)].
Proof.
  eexists. split; [vm_compute; reflexivity|].
  split; [reflexivity|]. split; [reflexivity|]. split; [reflexivity|].
  discriminate.
Qed.

(** C7 (amended): on a non-empty store [create] stores the display
    [{'id': new_id, **fields}] under the identifier it assigns.
    [create_item] returns that stored record, which binds every field sent
    and, when the caller sent no [id], the assigned one.  [create_user]
    returns a [UserOut] that carries the assigned [id] and the [user_type]
    of the stored record, and not its [name]. *)
Theorem C7_create_stores_and_returns
    (s : list (Z * record)) (user : UserIn.t) (item : Item.t) :
  s ≠ [] →
  ∃ new_id,
    (∃ s' out stored,
        Users.create_user user s = (Return out, s')
        ∧ PyDict.get new_id s' = Some stored
        ∧ stored = ("id"%string, VInt new_id) :: UserIn.dict user
        ∧ UserOut.id out = new_id
        ∧ PyDict.get "id"%string stored = Some (VInt (UserOut.id out))
        ∧ PyDict.get "user_type"%string stored =
            Some (VUserType (UserOut.user_type out))
        ∧ PyDict.get "name"%string (UserOut.dict out) = None)
    ∧ (∃ s' r,
        Items.create_item item s = (Return r, s')
        ∧ PyDict.get new_id s' = Some r
        ∧ r = PyDict.display "id"%string (VInt new_id) (Item.dict item)
        ∧ (PyDict.wf item →
           ∀ k v, PyDict.get k item = Some v → PyDict.get k r = Some v)
        ∧ (PyDict.wf item → "id"%string ∉ PyDict.keys item →
           r = ("id"%string, VInt new_id) :: item)).
Proof.
  intros Hs. destruct (py_max_is_Some (PyDict.keys s)) as [m Hmax].
  { by destruct s. }
  pose proof (py_max_fresh _ _ Hmax) as Hfresh.
  exists (m + 1). split.
  - eexists _, _, _. rewrite UsersFacts.create_user_eq, Hmax. split; [done|].
    rewrite get_snoc_fresh by done. by repeat split.
  - eexists _, _. rewrite ItemsFacts.create_item_eq, Hmax. split; [done|].
    rewrite get_snoc_fresh by done. repeat split.
    + intros Hwf k v Hk. unfold PyDict.display, Item.dict.
      rewrite get_update by done. by rewrite Hk.
    + intros Hwf Hid. by apply ItemsFacts.display_item.
Qed.

Lemma C7_create_stores_and_returns_witness :
  one_item ≠ []
  ∧ ∃ new_id s' r,
      Items.create_item [("name"%string, VStr "Bob")] one_item = (Return r, s')
      ∧ PyDict.get new_id s' = Some r
      ∧ r = PyDict.display "id"%string (VInt new_id)
              (Item.dict [("name"%string, VStr "Bob")]).
Proof.
  split; [done|].
  destruct (C7_create_stores_and_returns one_item (UserIn.mk "Bob" ADMIN)
              [("name"%string, VStr "Bob")])
    as (new_id & _ & (s' & r & Hc & Hg & Hr & _)); [done|].
  exists new_id, s', r. split; [exact Hc|]. split; [exact Hg | exact Hr].
Defined.

(** C8: [list(d.values())] returns the records in the order of their keys,
    one per entry, and leaves the store as it is; a key of the store has
    one position.  That order is the order of insertion: [create] puts the
    new key last, [replace] leaves the keys where they are, [delete] takes
    one key out of the sequence. *)
Theorem C8_list_returns_all_in_insertion_order (s : list (Z * record)) :
  PyDict.wf s →
  Users.get_all_users s = (Return (PyDict.values s), s)
  ∧ Items.show_all_items s = (Return (PyDict.values s), s)
  ∧ (∀ st, Patch.get_all_users st = (Return (PyDict.values (Patch.dummy_db st)), st))
  ∧ length (PyDict.values s) = length s
  ∧ (∀ (i : nat) k r, s !! i = Some (k, r) →
       PyDict.keys s !! i = Some k ∧ PyDict.values s !! i = Some r)
  ∧ (∀ k r, PyDict.get k s = Some r →
       ∃ i : nat, s !! i = Some (k, r)
         ∧ ∀ j : nat, PyDict.keys s !! j = Some k → j = i)
  ∧ (∀ user out s', Users.create_user user s = (Return out, s') →
       PyDict.wf s'
       ∧ PyDict.keys s' = PyDict.keys s ++ [UserOut.id out]
       ∧ ∃ r, PyDict.values s' = PyDict.values s ++ [r])
  ∧ (∀ new_user id out s', Users.update_user new_user id s = (Return out, s') →
       PyDict.wf s' ∧ PyDict.keys s' = PyDict.keys s)
  ∧ (∀ id s', Users.delete_user id s = (Return (), s') →
       PyDict.wf s'
       ∧ PyDict.keys s' = filter (λ k, k ≠ id) (PyDict.keys s)
       ∧ PyDict.values s' `sublist_of` PyDict.values s).
Proof.
  intros Hwf. repeat apply conj; try done.
  - unfold PyDict.values. by rewrite length_fmap.
  - intros i k r Hi. by rewrite keys_lookup, values_lookup, Hi.
  - intros k r [i Hi]%get_Some_lookup. exists i. split; [done|].
    intros j Hj. eapply NoDup_lookup; [exact Hwf | exact Hj |].
    by rewrite keys_lookup, Hi.
  - intros user out s'. rewrite UsersFacts.create_user_eq.
    destruct (py_max (PyDict.keys s)) as [m|] eqn:Hmax; [|done].
    intros [= <- <-]. split; [|split].
    + rewrite <- setitem_fresh by by apply py_max_fresh. by apply wf_setitem.
    + apply IdFacts.keys_snoc.
    + eexists. unfold PyDict.values. by rewrite fmap_app.
  - intros new_user id out s'. rewrite UsersFacts.update_user_eq.
    destruct (PyDict.contains id s) eqn:Hc; [|done].
    intros [= <- <-]. split; [by apply wf_setitem|].
    apply keys_setitem_present. by apply contains_true.
  - intros id s'. rewrite UsersFacts.delete_user_eq.
    destruct (PyDict.contains id s); [|done].
    intros [= <-]. split; [by apply wf_delitem|]. split; [apply keys_delitem|].
    unfold PyDict.values, PyDict.delitem. apply fmap_sublist, sublist_filter.
Qed.

Lemma C8_list_returns_all_in_insertion_order_witness :
  PyDict.wf three_users
  ∧ Users.get_all_users three_users = (Return (PyDict.values three_users), three_users)
  ∧ length (PyDict.values three_users) = length three_users.
Proof.
  assert (H1 : PyDict.wf three_users) by by apply (bool_decide_unpack _).
  split; [exact H1|].
  destruct (C8_list_returns_all_in_insertion_order three_users H1)
    as (Hl & _ & _ & Hlen & _).
  split; [exact Hl | exact Hlen].
Defined.

(** C10: the reply of [GET /users/{user_id}] and the store it leaves are
    functions of the query parameter [id] alone; two requests that differ
    in the path segment only are served alike. *)
Theorem C10_fetch_ignores_path_segment
    (path1 path2 : string) (id : Z) (s : Users.db) :
  Users.route_get_user_by_id
      {| Users.path_user_id := path1; Users.query_id := id |} s =
    Users.route_get_user_by_id
      {| Users.path_user_id := path2; Users.query_id := id |} s
  ∧ (Users.route_get_user_by_id
       {| Users.path_user_id := path1; Users.query_id := id |} s).2 = s.
Proof.
  split; [reflexivity|].
  unfold Users.route_get_user_by_id. cbn [Users.query_id].
  destruct (decide (1 ≤ id)); [|done].
  by rewrite UsersFacts.get_user_by_id_eq.
Qed.

(** * Further properties of the handlers *)

(** ** More on dictionaries *)

Section dict_more.
Context {K V : Type} `{EqDecision K}.
Implicit Types (k : K) (v : V) (d : list (K * V)).

Lemma get_Some_elem k v d : PyDict.get k d = Some v → (k, v) ∈ d.
Proof.
  intros [i Hi]%get_Some_lookup. by eapply list_elem_of_lookup_2.
Qed.

Lemma Forall_setitem (P : K * V → Prop) k v d :
  Forall P d → P (k, v) → Forall P (PyDict.setitem k v d).
Proof.
  intros Hd Hkv. induction Hd as [|[k' v'] d Hx Hd IH]; simpl.
  - by constructor.
  - destruct (decide (k = k')) as [<-|Hne]; by constructor.
Qed.

Lemma Forall_delitem (P : K * V → Prop) k d :
  Forall P d → Forall P (PyDict.delitem k d).
Proof.
  rewrite !Forall_forall. intros Hd x [_ Hx]%list_elem_of_filter. by apply Hd.
Qed.

(** Deleting the key that was inserted last gives the dictionary back. *)
Lemma delitem_snoc_fresh k v d :
  k ∉ PyDict.keys d → PyDict.delitem k (d ++ [(k, v)]) = d.
Proof.
  intros Hk. unfold PyDict.delitem. rewrite filter_app.
  fold (PyDict.delitem k d). rewrite delitem_absent by done.
  rewrite filter_cons. simpl. rewrite decide_False by (by intros ?).
  by rewrite filter_nil, app_nil_r.
Qed.

(** [del d[k]] takes out one entry. *)
Lemma length_delitem k d :
  PyDict.wf d → k ∈ PyDict.keys d →
  S (length (PyDict.delitem k d)) = length d.
Proof.
  unfold PyDict.wf, PyDict.keys, PyDict.delitem.
  induction d as [|[k' v'] d IH]; simpl.
  - by intros _ ?%elem_of_nil.
  - intros [Hk' Hwf]%NoDup_cons Hin. rewrite filter_cons. simpl.
    destruct (decide (k' ≠ k)) as [Hne|Heq].
    + simpl. f_equal. apply IH; [done|].
      apply elem_of_cons in Hin as [->|Hin]; done.
    + apply dec_stable in Heq. subst k'.
      fold (PyDict.delitem k d). fold (PyDict.keys d) in Hk'.
      by rewrite delitem_absent.
Qed.

(** Assignments to two distinct keys that are both present commute. *)
Lemma setitem_comm k1 k2 v1 v2 d :
  k1 ≠ k2 → k1 ∈ PyDict.keys d → k2 ∈ PyDict.keys d →
  PyDict.setitem k1 v1 (PyDict.setitem k2 v2 d) =
    PyDict.setitem k2 v2 (PyDict.setitem k1 v1 d).
Proof.
  intros Hne. induction d as [|[k v] d IH]; simpl.
  - by intros ?%elem_of_nil.
  - intros H1 H2.
    destruct (decide (k2 = k)) as [->|Hk2], (decide (k1 = k)) as [->|Hk1];
      simpl; repeat case_decide; try done.
    apply elem_of_cons in H1 as [?|H1]; [done|].
    apply elem_of_cons in H2 as [?|H2]; [done|].
    by rewrite IH.
Qed.

(** Writing back the value a key is bound to changes nothing. *)
Lemma setitem_same k v d : PyDict.get k d = Some v → PyDict.setitem k v d = d.
Proof.
  induction d as [|[k' v'] d IH]; simpl; [done|].
  destruct (decide (k = k')) as [->|Hne].
  - by intros [= ->].
  - intros Hget. by rewrite IH.
Qed.

(** The keys of a dictionary stay in front after [d[k] = v] and after
    [d.update(other)]. *)
Lemma keys_setitem_prefix k v d :
  PyDict.keys d `prefix_of` PyDict.keys (PyDict.setitem k v d).
Proof.
  destruct (decide (k ∈ PyDict.keys d)) as [Hin|Hout].
  - by rewrite keys_setitem_present.
  - rewrite setitem_fresh by done. unfold PyDict.keys. rewrite fmap_app.
    by apply prefix_app_r.
Qed.

Lemma keys_update_prefix d other :
  PyDict.keys d `prefix_of` PyDict.keys (PyDict.update d other).
Proof.
  unfold PyDict.update. revert d.
  induction other as [|[k v] other IH]; intros d; simpl; [done|].
  etrans; [apply (keys_setitem_prefix k v) | apply IH].
Qed.

Lemma update_app d o1 o2 :
  PyDict.update d (o1 ++ o2) = PyDict.update (PyDict.update d o1) o2.
Proof. unfold PyDict.update. apply foldl_app. Qed.

(** [d.update(other)] a second time changes nothing. *)
Lemma update_update_same d other :
  PyDict.wf other →
  PyDict.update (PyDict.update d other) other = PyDict.update d other.
Proof.
  intros Hwf.
  assert (Hall : ∀ o' d', (∀ k v, (k, v) ∈ o' → PyDict.get k d' = Some v) →
                          PyDict.update d' o' = d').
  { unfold PyDict.update.
    induction o' as [|[k v] o' IH]; intros d' Hd'; simpl; [done|].
    rewrite setitem_same by (apply Hd'; left).
    apply IH. intros k' v' Hin. apply Hd'. by right. }
  apply Hall. intros k v Hin. rewrite get_update by done.
  assert (Hget : PyDict.get k other = Some v); [|by rewrite Hget].
  clear -Hwf Hin. unfold PyDict.wf in Hwf.
  induction other as [|[k' v'] other IH]; simpl; [by apply elem_of_nil in Hin|].
  simpl in Hwf. apply NoDup_cons in Hwf as [Hk' Hwf].
  apply elem_of_cons in Hin as [[= <- <-]|Hin].
  - by rewrite decide_True.
  - rewrite decide_False; [by apply IH|].
    intros <-. apply Hk'. apply list_elem_of_fmap. by exists (k, v).
Qed.
End dict_more.

(** The greatest element of a list is what [max] returns. *)
Lemma py_max_unique (l : list Z) (m : Z) :
  m ∈ l → (∀ k, k ∈ l → k ≤ m) → py_max l = Some m.
Proof.
  intros Hin Hub. destruct (py_max_is_Some l) as [m' Hm'].
  { intros ->. by apply elem_of_nil in Hin. }
  pose proof (py_max_Some _ _ Hm') as [Hin' Hub'].
  specialize (Hub _ Hin'). specialize (Hub' _ Hin).
  rewrite Hm'. f_equal. lia.
Qed.

(** ** Runs *)

Section runs.
Context {S A B : Type}.

(** A property of the store that every request keeps holds after every
    run. *)
Lemma serve_all_invariant (h : A → handler S B) (P : S → Prop) :
  (∀ x s, P s → P (h x s).2) →
  ∀ xs s, P s → P (serve_all h xs s).2.
Proof.
  intros Hstep xs. induction xs as [|x xs IH]; intros s Hs; simpl; [done|].
  specialize (Hstep x s Hs). destruct (h x s) as [o s1].
  specialize (IH s1 Hstep). by destruct (serve_all h xs s1).
Qed.

Lemma serve_all_cons (h : A → handler S B) (x : A) (xs : list A) (s : S) :
  serve_all h (x :: xs) s =
    ((h x s).1 :: (serve_all h xs (h x s).2).1, (serve_all h xs (h x s).2).2).
Proof.
  cbn [serve_all]. destruct (h x s) as [o s1]. cbn [fst snd].
  by destruct (serve_all h xs s1).
Qed.
End runs.

Module UsersRun.
Import Users UsersFacts.

(** The store that a call leaves behind. *)
Lemma serve_state (c : call) (s : db) :
  (serve c s).2 =
    match c with
    | GetAllUsers | GetUserById _ => s
    | CreateUser user =>
        match py_max (PyDict.keys s) with
        | Some m =>
            s ++ [(m + 1, PyDict.display "id"%string (VInt (m + 1)) (UserIn.dict user))]
        | None => s
        end
    | UpdateUser new_user user_id =>
        if PyDict.contains user_id s
        then PyDict.setitem user_id
               (PyDict.display "id"%string (VInt user_id) (UserIn.dict new_user)) s
        else s
    | DeleteUser user_id =>
        if PyDict.contains user_id s then PyDict.delitem user_id s else s
    end.
Proof.
  destruct c as [|id|user|new_user user_id|user_id]; simpl; unfold bind.
  - done.
  - rewrite get_user_by_id_eq. by destruct (PyDict.get id s).
  - rewrite create_user_eq. by destruct (py_max (PyDict.keys s)).
  - rewrite update_user_eq. by destruct (PyDict.contains user_id s).
  - rewrite delete_user_eq. by destruct (PyDict.contains user_id s).
Qed.

End UsersRun.

(** ** The users and items routers *)

(** X1: over every run of calls on the users router, the keys of [users]
    stay pairwise distinct and every stored record keeps, in its field
    [id], the key it is stored under; whatever [users[id]] then holds
    carries that [id]. *)
Theorem X1_users_records_carry_their_key (s : Users.db) (cs : list Users.call) :
  PyDict.wf s → Users.ids_agree s →
  PyDict.wf (serve_all Users.serve cs s).2
  ∧ Users.ids_agree (serve_all Users.serve cs s).2
  ∧ ∀ id r, PyDict.get id (serve_all Users.serve cs s).2 = Some r →
            PyDict.get "id"%string r = Some (VInt id).
Proof.
  intros Hwf Hids.
  assert (Hinv : PyDict.wf (serve_all Users.serve cs s).2
                 ∧ Users.ids_agree (serve_all Users.serve cs s).2).
  { apply (serve_all_invariant Users.serve (λ s, PyDict.wf s ∧ Users.ids_agree s));
      [|done].
    clear. intros c s [Hwf Hids]. rewrite UsersRun.serve_state.
    destruct c as [|id|user|new_user user_id|user_id]; try done.
    - destruct (py_max (PyDict.keys s)) as [m|] eqn:Hmax; [|done].
      rewrite <- setitem_fresh by by apply py_max_fresh.
      split; [by apply wf_setitem | by apply Forall_setitem].
    - destruct (PyDict.contains user_id s); [|done].
      split; [by apply wf_setitem | by apply Forall_setitem].
    - destruct (PyDict.contains user_id s); [|done].
      split; [by apply wf_delitem | by apply Forall_delitem]. }
  destruct Hinv as [Hwf' Hids']. split; [done|]. split; [done|].
  intros id r Hin%get_Some_elem.
  unfold Users.ids_agree in Hids'. rewrite Forall_forall in Hids'.
  apply (Hids' _ Hin).
Qed.

Lemma X1_users_records_carry_their_key_witness :
  PyDict.wf three_users ∧ Users.ids_agree three_users
  ∧ PyDict.wf
      (serve_all Users.serve
         [Users.CreateUser (UserIn.mk "Dora" ADMIN); Users.DeleteUser 2] three_users).2
  ∧ Users.ids_agree
      (serve_all Users.serve
         [Users.CreateUser (UserIn.mk "Dora" ADMIN); Users.DeleteUser 2] three_users).2.
Proof.
  assert (H1 : PyDict.wf three_users) by by apply (bool_decide_unpack _).
  assert (H2 : Users.ids_agree three_users) by by repeat constructor.
  split; [exact H1|]. split; [exact H2|].
  destruct (X1_users_records_carry_their_key three_users
              [Users.CreateUser (UserIn.mk "Dora" ADMIN); Users.DeleteUser 2] H1 H2)
    as (Hw & Hi & _).
  split; [exact Hw | exact Hi].
Defined.

(** X2: [create] and [delete] touch one key.  After a successful
    [create_user] or [create_item] every identifier of the store still has
    its record and the old store is a prefix of the new one; after a
    successful [delete_user] or [delete_item] every other identifier has
    the record it had. *)
Theorem X2_create_and_delete_leave_other_records
    (s : list (Z * record)) (user : UserIn.t) (item : Item.t) (id : Z) :
  (∀ out s', Users.create_user user s = (Return out, s') →
     s `prefix_of` s'
     ∧ ∀ id' r, PyDict.get id' s = Some r → PyDict.get id' s' = Some r)
  ∧ (∀ r0 s', Items.create_item item s = (Return r0, s') →
     s `prefix_of` s'
     ∧ ∀ id' r, PyDict.get id' s = Some r → PyDict.get id' s' = Some r)
  ∧ (∀ s', Users.delete_user id s = (Return (), s') →
     ∀ id', id' ≠ id → PyDict.get id' s' = PyDict.get id' s)
  ∧ (∀ s', Items.delete_item id s = (Return (), s') →
     ∀ id', id' ≠ id → PyDict.get id' s' = PyDict.get id' s).
Proof.
  assert (Hsnoc : ∀ m (r1 : record), py_max (PyDict.keys s) = Some m →
            s `prefix_of` s ++ [(m + 1, r1)]
            ∧ ∀ id' r, PyDict.get id' s = Some r →
                       PyDict.get id' (s ++ [(m + 1, r1)]) = Some r).
  { intros m r1 Hmax. split; [by apply prefix_app_r|].
    intros id' r Hget. rewrite get_snoc_ne; [done|].
    intros <-. apply (py_max_fresh _ _ Hmax). apply get_is_Some. by eexists. }
  repeat apply conj.
  - intros out s'. rewrite UsersFacts.create_user_eq.
    destruct (py_max (PyDict.keys s)) as [m|] eqn:Hmax; [|done].
    intros [= <- <-]. by apply Hsnoc.
  - intros r0 s'. rewrite ItemsFacts.create_item_eq.
    destruct (py_max (PyDict.keys s)) as [m|] eqn:Hmax; [|done].
    intros [= <- <-]. by apply Hsnoc.
  - intros s'. rewrite UsersFacts.delete_user_eq.
    destruct (PyDict.contains id s); [|done].
    intros [= <-] id' Hne. by apply get_delitem_ne.
  - intros s'. rewrite ItemsFacts.delete_item_eq.
    destruct (PyDict.contains id s); [|done].
    intros [= <-] id' Hne. by apply get_delitem_ne.
Qed.

Lemma X2_create_and_delete_leave_other_records_witness :
  Users.delete_user 2 three_users = (Return (), PyDict.delitem 2 three_users)
  ∧ 3 ≠ 2
  ∧ PyDict.get 3 (PyDict.delitem 2 three_users) = PyDict.get 3 three_users.
Proof.
  assert (H1 : Users.delete_user 2 three_users =
                 (Return (), PyDict.delitem 2 three_users)) by reflexivity.
  assert (H2 : 3 ≠ 2) by lia.
  split; [exact H1|]. split; [exact H2|].
  destruct (X2_create_and_delete_leave_other_records three_users
              (UserIn.mk "Dora" ADMIN) [] 2) as (_ & _ & Hdel & _).
  exact (Hdel _ H1 3 H2).
Defined.

(** X3: deleting the identifier that [create] has just assigned gives back
    the store as it was before the [create], entry for entry. *)
Theorem X3_create_then_delete_restores_the_store
    (s : list (Z * record)) (user : UserIn.t) (item : Item.t) :
  s ≠ [] →
  ∃ new_id,
    (∃ s', Users.create_user user s =
             (Return (UserOut.mk new_id (UserIn.user_type user)), s')
           ∧ Users.delete_user new_id s' = (Return (), s))
    ∧ (∃ r s', Items.create_item item s = (Return r, s')
               ∧ PyDict.get new_id s' = Some r
               ∧ Items.delete_item new_id s' = (Return (), s)).
Proof.
  intros Hs. destruct (py_max_is_Some (PyDict.keys s)) as [m Hmax].
  { by destruct s. }
  pose proof (py_max_fresh _ _ Hmax) as Hfresh.
  assert (Hc : ∀ r : record, PyDict.contains (m + 1) (s ++ [(m + 1, r)]) = true).
  { intros r. unfold PyDict.contains. by rewrite get_snoc_fresh. }
  exists (m + 1). split.
  - eexists. rewrite UsersFacts.create_user_eq, Hmax. split; [done|].
    by rewrite UsersFacts.delete_user_eq, Hc, delitem_snoc_fresh.
  - eexists _, _. rewrite ItemsFacts.create_item_eq, Hmax. split; [done|].
    rewrite get_snoc_fresh by done. split; [done|].
    by rewrite ItemsFacts.delete_item_eq, Hc, delitem_snoc_fresh.
Qed.

Lemma X3_create_then_delete_restores_the_store_witness :
  three_users ≠ []
  ∧ ∃ new_id s',
      Users.create_user (UserIn.mk "Dora" ADMIN) three_users =
        (Return (UserOut.mk new_id ADMIN), s')
      ∧ Users.delete_user new_id s' = (Return (), three_users).
Proof.
  split; [done|].
  destruct (X3_create_then_delete_restores_the_store three_users
              (UserIn.mk "Dora" ADMIN) [])
    as (new_id & (s' & Hc & Hd) & _); [done|].
  exists new_id, s'. split; [exact Hc | exact Hd].
Defined.

(** X4: on a store with distinct keys a successful [delete_user] removes
    exactly one record, a successful [create_user] adds exactly one and a
    successful [update_user] keeps the number of records. *)
Theorem X4_store_size (s : Users.db) (user : UserIn.t) (id : Z) :
  PyDict.wf s →
  (∀ s', Users.delete_user id s = (Return (), s') → S (length s') = length s)
  ∧ (∀ out s', Users.create_user user s = (Return out, s') →
       length s' = S (length s))
  ∧ (∀ out s', Users.update_user user id s = (Return out, s') →
       length s' = length s).
Proof.
  intros Hwf. repeat apply conj.
  - intros s'. rewrite UsersFacts.delete_user_eq.
    destruct (PyDict.contains id s) eqn:Hc; [|done].
    intros [= <-]. apply length_delitem; [done | by apply contains_true].
  - intros out s'. rewrite UsersFacts.create_user_eq.
    destruct (py_max (PyDict.keys s)) as [m|]; [|done].
    intros [= <- <-]. rewrite length_app. simpl. lia.
  - intros out s'. rewrite UsersFacts.update_user_eq.
    destruct (PyDict.contains id s) eqn:Hc; [|done].
    intros [= <- <-]. apply length_setitem_present. by apply contains_true.
Qed.

Lemma X4_store_size_witness :
  PyDict.wf three_users
  ∧ Users.delete_user 2 three_users = (Return (), PyDict.delitem 2 three_users)
  ∧ S (length (PyDict.delitem 2 three_users)) = length three_users.
Proof.
  assert (H1 : PyDict.wf three_users) by by apply (bool_decide_unpack _).
  assert (H2 : Users.delete_user 2 three_users =
                 (Return (), PyDict.delitem 2 three_users)) by reflexivity.
  split; [exact H1|]. split; [exact H2|].
  exact (proj1 (X4_store_size three_users (UserIn.mk "Dora" ADMIN) 2 H1) _ H2).
Defined.

(** X5: when the greatest identifier is deleted and another record is
    left, the next [create_user] assigns an identifier that is not above
    the deleted one, and the deleted one itself if its predecessor is in
    the store. *)
Theorem X5_greatest_id_is_handed_out_again
    (s : Users.db) (user : UserIn.t) (id other : Z) :
  id ∈ PyDict.keys s →
  (∀ k, k ∈ PyDict.keys s → k ≤ id) →
  other ∈ PyDict.keys s → other ≠ id →
  ∃ s1 out s2,
    Users.delete_user id s = (Return (), s1)
    ∧ Users.create_user user s1 = (Return out, s2)
    ∧ UserOut.id out ≤ id
    ∧ (id - 1 ∈ PyDict.keys s → UserOut.id out = id).
Proof.
  intros Hid Hub Hother Hne.
  rewrite UsersFacts.delete_user_eq.
  apply contains_true in Hid as Hc. rewrite Hc.
  assert (Hin : other ∈ PyDict.keys (PyDict.delitem id s)).
  { rewrite keys_delitem. by apply list_elem_of_filter. }
  destruct (py_max_is_Some (PyDict.keys (PyDict.delitem id s))) as [m Hmax].
  { intros Heq. rewrite Heq in Hin. by apply elem_of_nil in Hin. }
  pose proof (py_max_Some _ _ Hmax) as [Hm Hmub].
  rewrite keys_delitem in Hm, Hmub. apply list_elem_of_filter in Hm as [Hm1 Hm2].
  eexists _, _, _. split; [done|].
  rewrite UsersFacts.create_user_eq, Hmax. split; [done|]. simpl.
  specialize (Hub _ Hm2). split; [lia|].
  intros Hpred. assert (id - 1 ≤ m); [|lia].
  apply Hmub. apply list_elem_of_filter. split; [lia | done].
Qed.

Lemma X5_greatest_id_is_handed_out_again_witness :
  3 ∈ PyDict.keys three_users
  ∧ (∀ k, k ∈ PyDict.keys three_users → k ≤ 3)
  ∧ 2 ∈ PyDict.keys three_users
  ∧ 2 ≠ 3
  ∧ ∃ s1 out s2,
      Users.delete_user 3 three_users = (Return (), s1)
      ∧ Users.create_user (UserIn.mk "Dora" ADMIN) s1 = (Return out, s2)
      ∧ UserOut.id out ≤ 3.
Proof.
  assert (H1 : 3 ∈ PyDict.keys three_users) by by apply (bool_decide_unpack _).
  assert (H2 : ∀ k, k ∈ PyDict.keys three_users → k ≤ 3).
  { intros k Hk. simpl in Hk.
    repeat (apply elem_of_cons in Hk as [->|Hk]; [lia|]).
    by apply elem_of_nil in Hk. }
  assert (H3 : 2 ∈ PyDict.keys three_users) by by apply (bool_decide_unpack _).
  assert (H4 : 2 ≠ 3) by lia.
  split; [exact H1|]. split; [exact H2|]. split; [exact H3|]. split; [exact H4|].
  destruct (X5_greatest_id_is_handed_out_again three_users
              (UserIn.mk "Dora" ADMIN) 3 2 H1 H2 H3 H4)
    as (s1 & out & s2 & Hd & Hc & Hle & _).
  exists s1, out, s2. split; [exact Hd|]. split; [exact Hc | exact Hle].
Defined.

(** X6: an empty [users] dictionary stays empty.  Over every run of calls
    from the empty store no [create_user] returns an identifier and the
    store is empty at the end: once the last record is deleted the router
    cannot store a record again. *)
Theorem X6_empty_store_stays_empty (cs : list Users.call) :
  (serve_all Users.serve cs []).2 = []
  ∧ Users.created_ids cs [] = []
  ∧ ∀ s id s', PyDict.keys s = [id] →
      Users.delete_user id s = (Return (), s') →
      (serve_all Users.serve cs s').2 = [] ∧ Users.created_ids cs s' = [].
Proof.
  assert (Hstate : (serve_all Users.serve cs []).2 = []).
  { by apply (serve_all_invariant Users.serve (λ s, s = []));
      [intros [] ? -> |]. }
  assert (Hids : Users.created_ids cs [] = []).
  { clear Hstate. induction cs as [|c cs IH]; [done|].
    rewrite IdFacts.created_ids_cons. by destruct c. }
  split; [done|]. split; [done|].
  intros s id s' Hkeys. rewrite UsersFacts.delete_user_eq.
  destruct (PyDict.contains id s); [|done]. intros [= <-].
  assert (PyDict.delitem id s = []) as ->; [|done].
  destruct s as [|[k r] [|? ?]]; try done.
  injection Hkeys as ->. unfold PyDict.delitem. rewrite filter_cons. simpl.
  by rewrite decide_False by (by intros ?).
Qed.

Lemma X6_empty_store_stays_empty_witness :
  PyDict.keys [(5, [("id"%string, VInt 5)])] = [5]
  ∧ Users.delete_user 5 [(5, [("id"%string, VInt 5)])] = (Return (), [])
  ∧ Users.created_ids [Users.CreateUser (UserIn.mk "Dora" ADMIN)] [] = [].
Proof.
  assert (H1 : PyDict.keys [(5, [("id"%string, VInt 5)])] = [5]) by reflexivity.
  assert (H2 : Users.delete_user 5 [(5, [("id"%string, VInt 5)])] = (Return (), []))
    by reflexivity.
  split; [exact H1|]. split; [exact H2|].
  destruct (X6_empty_store_stays_empty [Users.CreateUser (UserIn.mk "Dora" ADMIN)])
    as (_ & _ & Hdel).
  exact (proj2 (Hdel _ _ _ H1 H2)).
Defined.

(** X7: the last write to an identifier wins.  A [update_user] followed by
    another [update_user] of the same identifier leaves the store that the
    second one alone leaves, and a [update_user] followed by [delete_user]
    leaves the store that the [delete_user] alone leaves. *)
Theorem X7_later_write_overrides
    (s : Users.db) (id : Z) (user1 user2 : UserIn.t) :
  (serve_all Users.serve [Users.UpdateUser user1 id; Users.UpdateUser user2 id] s).2
    = (Users.update_user user2 id s).2
  ∧ (serve_all Users.serve [Users.UpdateUser user1 id; Users.DeleteUser id] s).2
    = (Users.delete_user id s).2.
Proof.
  rewrite !serve_all_cons. cbn [serve_all fst snd].
  rewrite !UsersRun.serve_state, UsersFacts.update_user_eq, UsersFacts.delete_user_eq.
  destruct (PyDict.contains id s) eqn:Hc; cbn [snd]; rewrite ?Hc; [|done].
  assert (PyDict.contains id
            (PyDict.setitem id
               (PyDict.display "id"%string (VInt id) (UserIn.dict user1)) s) = true)
    as ->.
  { apply contains_true. rewrite keys_setitem_present; by apply contains_true. }
  split; [apply setitem_setitem|].
  unfold PyDict.delitem. clear Hc.
  induction s as [|[k r] s IH]; simpl.
  - rewrite filter_cons. simpl. by rewrite decide_False by (by intros ?).
  - destruct (decide (id = k)) as [->|Hne].
    + rewrite !filter_cons. simpl. by rewrite !decide_False by (by intros ?).
    + rewrite !filter_cons. simpl. rewrite !decide_True by done. by rewrite IH.
Qed.

(** X8: replacements of two different identifiers commute: in either
    order they leave the same store, whether or not the identifiers are
    present. *)
Theorem X8_updates_of_distinct_ids_commute
    (s : Users.db) (id1 id2 : Z) (user1 user2 : UserIn.t) :
  id1 ≠ id2 →
  (serve_all Users.serve [Users.UpdateUser user1 id1; Users.UpdateUser user2 id2] s).2
    = (serve_all Users.serve
         [Users.UpdateUser user2 id2; Users.UpdateUser user1 id1] s).2.
Proof.
  intros Hne. rewrite !serve_all_cons. cbn [serve_all fst snd].
  rewrite !UsersRun.serve_state.
  assert (Hkeep : ∀ k k' (r : record) (d : Users.db), k ≠ k' →
            PyDict.contains k' (PyDict.setitem k r d) = PyDict.contains k' d).
  { intros k k' r d Hk. unfold PyDict.contains. by rewrite get_setitem_ne. }
  destruct (PyDict.contains id1 s) eqn:Hc1, (PyDict.contains id2 s) eqn:Hc2;
    rewrite ?Hkeep, ?Hc1, ?Hc2 by done; try done.
  apply contains_true in Hc1, Hc2. symmetry. by apply setitem_comm.
Qed.

Lemma X8_updates_of_distinct_ids_commute_witness :
  1 ≠ 3
  ∧ (serve_all Users.serve
       [Users.UpdateUser (UserIn.mk "Ann" ADMIN) 1;
        Users.UpdateUser (UserIn.mk "Cy" ADMIN) 3] three_users).2
    = (serve_all Users.serve
         [Users.UpdateUser (UserIn.mk "Cy" ADMIN) 3;
          Users.UpdateUser (UserIn.mk "Ann" ADMIN) 1] three_users).2.
Proof.
  assert (H1 : 1 ≠ 3) by lia.
  split; [exact H1|].
  exact (X8_updates_of_distinct_ids_commute three_users 1 3
           (UserIn.mk "Ann" ADMIN) (UserIn.mk "Cy" ADMIN) H1).
Defined.



(** X10: a field [id] in the body wins over the identifier of the route.
    In the display [{'id': item_id, **new_item.dict()}] the later key
    overrides the earlier one, so when the item binds [id] to [v], the
    record that [update_item] and [create_item] store and return has [v]
    in its field [id], whatever key it is stored under. *)
Theorem X10_item_id_field_overrides_the_key
    (s : Items.db) (item_id : Z) (item : Item.t) (v : value) :
  PyDict.wf item →
  PyDict.get "id"%string (Item.dict item) = Some v →
  (item_id ∈ PyDict.keys s →
     ∃ r s', Items.update_item item_id item s = (Return r, s')
             ∧ PyDict.get item_id s' = Some r
             ∧ PyDict.get "id"%string r = Some v)
  ∧ (s ≠ [] →
     ∃ new_id r s', Items.create_item item s = (Return r, s')
                    ∧ PyDict.get new_id s' = Some r
                    ∧ PyDict.get "id"%string r = Some v).
Proof.
  intros Hwf Hid.
  assert (Hdisp : ∀ n, PyDict.get "id"%string
            (PyDict.display "id"%string (VInt n) (Item.dict item)) = Some v).
  { intros n. unfold PyDict.display. rewrite get_update by done. by rewrite Hid. }
  split.
  - intros Hc%contains_true. eexists _, _.
    rewrite ItemsFacts.update_item_eq, Hc. split; [done|].
    by rewrite get_setitem_eq.
  - intros Hs. destruct (py_max_is_Some (PyDict.keys s)) as [m Hmax].
    { by destruct s. }
    exists (m + 1). eexists _, _.
    rewrite ItemsFacts.create_item_eq, Hmax. split; [done|].
    by rewrite get_snoc_fresh by by apply py_max_fresh.
Qed.

Lemma X10_item_id_field_overrides_the_key_witness :
  PyDict.wf [("id"%string, VInt 99); ("name"%string, VStr "Bob")]
  ∧ PyDict.get "id"%string (Item.dict [("id"%string, VInt 99); ("name"%string, VStr "Bob")])
      = Some (VInt 99)
  ∧ 7 ∈ PyDict.keys one_item
  ∧ ∃ r s',
      Items.update_item 7 [("id"%string, VInt 99); ("name"%string, VStr "Bob")] one_item
        = (Return r, s')
      ∧ PyDict.get 7 s' = Some r
      ∧ PyDict.get "id"%string r = Some (VInt 99).
Proof.
  assert (H1 : PyDict.wf [("id"%string, VInt 99); ("name"%string, VStr "Bob")])
    by by apply (bool_decide_unpack _).
  assert (H2 : PyDict.get "id"%string
                 (Item.dict [("id"%string, VInt 99); ("name"%string, VStr "Bob")])
               = Some (VInt 99)) by reflexivity.
  assert (H3 : 7 ∈ PyDict.keys one_item) by by apply (bool_decide_unpack _).
  split; [exact H1|]. split; [exact H2|]. split; [exact H3|].
  exact (proj1 (X10_item_id_field_overrides_the_key one_item 7 _ _ H1 H2) H3).
Defined.

(** ** The PATCH handler *)

Module PatchRun.
Import Patch PatchFacts.

(** The state that a PATCH leaves behind. *)
Lemma update_user_state (user_id : Z) (user_update : UserUpdate.t) (st : state) :
  (update_user user_id user_update st).2 =
    match PyDict.get user_id (dummy_db st) with
    | None => st
    | Some user =>
        {| dummy_db := dummy_db st;
           heap := alter
             (λ r, PyDict.update r (UserUpdate.model_dump_exclude_unset user_update))
             user (heap st) |}
    end.
Proof.
  rewrite patch_user_eq. by destruct (PyDict.get user_id (dummy_db st)).
Qed.

Lemma update_user_dummy_db (user_id : Z) (user_update : UserUpdate.t) (st : state) :
  dummy_db (update_user user_id user_update st).2 = dummy_db st.
Proof.
  rewrite update_user_state. by destruct (PyDict.get user_id (dummy_db st)).
Qed.

(** The fields that a dump can hold. *)
Lemma model_dump_keys (user_update : UserUpdate.t) :
  PyDict.keys (UserUpdate.model_dump_exclude_unset user_update)
    ⊆ ["name"%string; "age"%string].
Proof.
  destruct user_update as [[[n|]|] [[a|]|]]; simpl; intros k Hk;
    repeat (apply elem_of_cons in Hk as [->|Hk];
            [by apply (bool_decide_unpack _)|]);
    by apply elem_of_nil in Hk.
Qed.
End PatchRun.

(** X11: PATCH with a given body is idempotent: a second identical request
    gets the reply of the first and leaves the state that the first has
    left, for every identifier, present or not. *)
Theorem X11_patch_is_idempotent
    (st : Patch.state) (user_id : Z) (user_update : UserUpdate.t) :
  Patch.update_user user_id user_update
      (Patch.update_user user_id user_update st).2
    = Patch.update_user user_id user_update st.
Proof.
  rewrite PatchRun.update_user_state, !PatchFacts.patch_user_eq.
  destruct (PyDict.get user_id (Patch.dummy_db st)) as [user|] eqn:Hget;
    cbn [Patch.dummy_db Patch.heap]; rewrite Hget; [|done].
  do 2 f_equal. rewrite list_alter_alter_eq.
  apply list_alter_ext; [|done]. intros r _. simpl.
  apply update_update_same, PatchFacts.model_dump_wf.
Qed.

(** X12: a PATCH whose body sets no field changes nothing: the state is
    the state before, the reply is the stored object, and an absent
    identifier still gets the 404. *)
Theorem X12_empty_patch_changes_nothing (st : Patch.state) (user_id : Z) :
  Patch.update_user user_id (UserUpdate.mk None None) st =
    (match PyDict.get user_id (Patch.dummy_db st) with
     | Some user => Return user
     | None => Raise Patch.NotFound
     end, st).
Proof.
  rewrite PatchFacts.patch_user_eq.
  destruct (PyDict.get user_id (Patch.dummy_db st)) as [user|]; [|done].
  f_equal. destruct st as [db hp]. simpl. f_equal. by apply list_alter_id.
Qed.

(** X13: PATCH never removes or reorders a field and never touches the
    table of identifiers: the fields of the record before are an initial
    segment of the fields after, any further field is [name] or [age],
    [dummy_db] is the same dictionary and the heap has the same size. *)
Theorem X13_patch_keeps_fields_and_ids
    (st : Patch.state) (user_id : Z) (user : nat) (r : record)
    (user_update : UserUpdate.t) :
  PyDict.get user_id (Patch.dummy_db st) = Some user →
  Patch.heap st !! user = Some r →
  ∃ st' r',
    Patch.update_user user_id user_update st = (Return user, st')
    ∧ Patch.lookup st' user_id = Some r'
    ∧ PyDict.keys r `prefix_of` PyDict.keys r'
    ∧ (∀ k, k ∈ PyDict.keys r' →
         k ∈ PyDict.keys r ∨ k = "name"%string ∨ k = "age"%string)
    ∧ Patch.dummy_db st' = Patch.dummy_db st
    ∧ length (Patch.heap st') = length (Patch.heap st).
Proof.
  intros Hget Hheap.
  exists {| Patch.dummy_db := Patch.dummy_db st;
            Patch.heap := alter
              (λ r0, PyDict.update r0 (UserUpdate.model_dump_exclude_unset user_update))
              user (Patch.heap st) |},
         (PyDict.update r (UserUpdate.model_dump_exclude_unset user_update)).
  rewrite PatchFacts.patch_user_eq, Hget.
  unfold Patch.lookup, Patch.deref. cbn [Patch.dummy_db Patch.heap].
  rewrite Hget. cbn [mbind option_bind].
  rewrite list_lookup_alter_eq, Hheap, length_alter.
  repeat apply conj; try done.
  - apply keys_update_prefix.
  - intros k Hk. destruct (decide (k ∈ PyDict.keys r)) as [|Hout]; [by left|].
    right. destruct (decide (k ∈ PyDict.keys
                                  (UserUpdate.model_dump_exclude_unset user_update)))
      as [Hin|Hout'].
    + apply PatchRun.model_dump_keys in Hin.
      apply elem_of_cons in Hin as [->|Hin]; [by left|].
      apply elem_of_cons in Hin as [->|Hin]; [by right|].
      by apply elem_of_nil in Hin.
    + apply get_is_Some in Hk as [v Hv].
      rewrite get_update_None in Hv; [done | by apply get_None | done].
Qed.

Lemma X13_patch_keeps_fields_and_ids_witness :
  PyDict.get 2 (Patch.dummy_db Patch.initial) = Some 1%nat
  ∧ Patch.heap Patch.initial !! 1%nat =
      Some [("name"%string, VStr "Bob"); ("age"%string, VInt 25)]
  ∧ ∃ st' r',
      Patch.update_user 2 (UserUpdate.mk (Some None) None) Patch.initial
        = (Return 1%nat, st')
      ∧ Patch.lookup st' 2 = Some r'
      ∧ PyDict.keys [("name"%string, VStr "Bob"); ("age"%string, VInt 25)]
          `prefix_of` PyDict.keys r'.
Proof.
  assert (H1 : PyDict.get 2 (Patch.dummy_db Patch.initial) = Some 1%nat)
    by reflexivity.
  assert (H2 : Patch.heap Patch.initial !! 1%nat =
                 Some [("name"%string, VStr "Bob"); ("age"%string, VInt 25)])
    by reflexivity.
  split; [exact H1|]. split; [exact H2|].
  destruct (X13_patch_keeps_fields_and_ids Patch.initial 2 1%nat _
              (UserUpdate.mk (Some None) None) H1 H2)
    as (st' & r' & Hrun & Hlook & Hpre & _).
  exists st', r'. split; [exact Hrun|]. split; [exact Hlook | exact Hpre].
Defined.

(** X14: over every run of PATCH requests from the [dummy_db] of the
    module, the identifiers 1, 2 and 3, and no others, stay in the table,
    and each of the three records keeps exactly the fields [name] and
    [age], in that order. *)
Theorem X14_patch_runs_keep_the_three_users (cs : list (Z * UserUpdate.t)) :
  Patch.dummy_db (serve_all Patch.serve cs Patch.initial).2
    = Patch.dummy_db Patch.initial
  ∧ Forall (λ r, PyDict.keys r = ["name"%string; "age"%string])
      (Patch.heap (serve_all Patch.serve cs Patch.initial).2)
  ∧ ∀ user_id, user_id ∈ [1; 2; 3] →
      ∃ r, Patch.lookup (serve_all Patch.serve cs Patch.initial).2 user_id = Some r
           ∧ PyDict.keys r = ["name"%string; "age"%string].
Proof.
  pose (P := λ st : Patch.state,
          Patch.dummy_db st = Patch.dummy_db Patch.initial
          ∧ length (Patch.heap st) = 3%nat
          ∧ Forall (λ r, PyDict.keys r = ["name"%string; "age"%string])
              (Patch.heap st)).
  assert (Hinv : P (serve_all Patch.serve cs Patch.initial).2).
  { apply (serve_all_invariant Patch.serve P).
    - intros [user_id user_update] st (Hdb & Hlen & Hall).
      unfold Patch.serve. cbn [fst snd]. rewrite PatchRun.update_user_state.
      destruct (PyDict.get user_id (Patch.dummy_db st)) as [user|]; [|done].
      split; [done|]. cbn [Patch.heap]. rewrite length_alter. split; [done|].
      apply Forall_alter; [done|]. intros r _ Hr.
      rewrite keys_update_present; [done|]. rewrite Hr.
      apply PatchRun.model_dump_keys.
    - split; [done|]. split; [done|]. by repeat constructor. }
  destruct Hinv as (Hdb & Hlen & Hall).
  split; [done|]. split; [done|].
  intros user_id Hid. unfold Patch.lookup, Patch.deref. rewrite Hdb.
  assert (∃ obj : nat, PyDict.get user_id (Patch.dummy_db Patch.initial) = Some obj
                       ∧ (obj < 3)%nat) as (obj & -> & Hobj).
  { repeat (apply elem_of_cons in Hid as [->|Hid]; [eexists; split; [done|lia]|]).
    by apply elem_of_nil in Hid. }
  cbn [mbind option_bind].
  destruct (lookup_lt_is_Some_2 (Patch.heap (serve_all Patch.serve cs Patch.initial).2)
              obj) as [r Hr]; [lia|].
  exists r. split; [done|].
  rewrite Forall_lookup in Hall. by apply (Hall _ _ Hr).
Qed.

Lemma X14_patch_runs_keep_the_three_users_witness :
  2 ∈ [1; 2; 3]
  ∧ ∃ r, Patch.lookup
           (serve_all Patch.serve
              [(2, UserUpdate.mk (Some None) (Some (Some 26)));
               (9, UserUpdate.mk None None)] Patch.initial).2 2 = Some r
         ∧ PyDict.keys r = ["name"%string; "age"%string].
Proof.
  assert (H1 : 2 ∈ [1; 2; 3]) by by apply (bool_decide_unpack _).
  split; [exact H1|].
  exact (proj2 (proj2 (X14_patch_runs_keep_the_three_users
           [(2, UserUpdate.mk (Some None) (Some (Some 26)));
            (9, UserUpdate.mk None None)])) 2 H1).
Defined.

(** X15: partial updates compose: a PATCH of [name] alone followed by a
    PATCH of [age] alone leaves the state that one PATCH with both fields
    leaves. *)
Theorem X15_patches_of_name_then_age_compose
    (st : Patch.state) (user_id : Z)
    (name : option (option string)) (age : option (option Z)) :
  (serve_all Patch.serve
     [(user_id, UserUpdate.mk name None); (user_id, UserUpdate.mk None age)] st).2
    = (Patch.update_user user_id (UserUpdate.mk name age) st).2.
Proof.
  rewrite !serve_all_cons. cbn [serve_all fst snd]. unfold Patch.serve.
  cbn [fst snd]. rewrite !PatchRun.update_user_state.
  destruct (PyDict.get user_id (Patch.dummy_db st)) as [user|] eqn:Hget;
    cbn [Patch.dummy_db Patch.heap]; rewrite Hget; [|done].
  f_equal. rewrite list_alter_alter_eq. apply list_alter_ext; [|done].
  intros r _. simpl. rewrite <- update_app.
  unfold UserUpdate.model_dump_exclude_unset. simpl. by rewrite app_nil_r.
Qed.

(** ** The posts of [response_by_path_parm.py] *)

(** X16: [delete_post] deletes nothing and [create_post] stores nothing.
    Over every run of calls the dictionary of posts is what it was, so
    [get_post] answers after the run as before it; [delete_post] returns
    its message for every [id], in the table or not; and [get_post], which
    reads [dummy_db[id]] with no test, returns the record of a key and
    raises [KeyError], not an [HTTPException], for any other [id]. *)
Theorem X16_posts_are_never_written (cs : list Posts.call) (s : Posts.db) (id : Z) :
  (serve_all Posts.serve cs s).2 = s
  ∧ Posts.get_post id (serve_all Posts.serve cs s).2 = Posts.get_post id s
  ∧ Posts.delete_post id s =
      (Return [("message"%string,
                VStr ("post with id " +:+ pretty id +:+ " has been deleted"))], s)
  ∧ ((Posts.get_post id s).1 = Raise KeyError ↔ id ∉ PyDict.keys s)
  ∧ (∀ r, (Posts.get_post id s).1 = Return r ↔ PyDict.get id s = Some r)
  ∧ (∀ e, (Posts.get_post id s).1 = Raise e → e = KeyError)
  ∧ (Posts.get_post id s).2 = s.
Proof.
  assert (Hrun : (serve_all Posts.serve cs s).2 = s).
  { apply (serve_all_invariant Posts.serve (λ s', s' = s)); [|done].
    intros c s' ->. destruct c as [post|id'|id']; try done.
    simpl. unfold bind, Posts.get_post, getitem, bind, read.
    by destruct (PyDict.get id' s). }
  rewrite Hrun. split; [done|]. split; [done|]. split; [done|].
  rewrite <- get_None.
  unfold Posts.get_post, getitem, bind, read, ret, raise.
  destruct (PyDict.get id s) as [r|]; simpl.
  - repeat apply conj; try done.
    intros r'. split; by intros [= ->].
  - repeat apply conj; try done. by intros e [= <-].
Qed.

Lemma X16_posts_are_never_written_witness :
  Posts.get_post 1
      (serve_all Posts.serve
         [Posts.DeletePost 1; Posts.CreatePost (Post.mk "third post" 0)]
         Posts.dummy_db).2
    = (Return [("title"%string, VStr "first post"); ("nb_views"%string, VInt 10)],
       Posts.dummy_db)
  ∧ ((Posts.get_post 3 Posts.dummy_db).1 = Raise KeyError
     ↔ 3 ∉ PyDict.keys Posts.dummy_db).
Proof.
  split.
  - rewrite (proj1 (proj2 (X16_posts_are_never_written
               [Posts.DeletePost 1; Posts.CreatePost (Post.mk "third post" 0)]
               Posts.dummy_db 1))).
    reflexivity.
  - exact (proj1 (proj2 (proj2 (proj2 (X16_posts_are_never_written [] Posts.dummy_db 3))))).
Defined.
